(** * Telemetry ingestion service: parser, batch buffer and flush engine

    A shallow embedding of [backend/run_enhanced_supabase.py] and
    [backend/telemetry_storage.py].

    - Python [str] values are modelled as [string]; the string helpers
      below follow the behaviour of the [str] methods on ASCII text.
    - A Python [dict] with string keys is a [gmap string pyvalue].
    - Dictionaries are objects: they live in a heap and are passed around
      by reference, so that the in-place update done by
      [add_telemetry_data] is visible through every alias.
    - The Supabase client and the clock are external: they are an interface
      ([Supabase]) whose calls are recorded in a trace. *)

From Stdlib Require Import ZArith QArith Ascii String List Lia.
From stdpp Require Import base option list gmap strings fin_maps.

Local Open Scope Z_scope.

(** ** Exceptions and results *)

Inductive exn : Type :=
| ValueError (msg : string)
| TypeError (msg : string)
| OverflowError (msg : string)
| RemoteError (msg : string).

(** [str(e)] *)
Definition str_of_exn (e : exn) : string :=
  match e with
  | ValueError m | TypeError m | OverflowError m | RemoteError m => m
  end.

Inductive result (A : Type) : Type :=
| Ok (a : A)
| Raise (e : exn).
Arguments Ok {A} a.
Arguments Raise {A} e.

Definition rbind {A B} (r : result A) (k : A -> result B) : result B :=
  match r with
  | Ok a => k a
  | Raise e => Raise e
  end.

(** ** Python values stored in a telemetry record *)

(** A float is kept as the decimal number its literal denotes, that is the
    value before [float()] rounds it to binary64 (where a literal such as
    [1e999] ends as an infinity), or one of the special values. *)
Inductive pyfloat : Type :=
| FNan
| FInf (neg : bool)
| FDec (neg : bool) (mant : N) (exp10 : Z).

Inductive pyvalue : Type :=
| VNone
| VInt (n : Z)
| VFloat (f : pyfloat)
| VStr (s : string).

Definition type_name (v : pyvalue) : string :=
  match v with
  | VNone => "NoneType"
  | VInt _ => "int"
  | VFloat _ => "float"
  | VStr _ => "str"
  end.

(** A telemetry record: a [dict] from field name to value. *)
Abbreviation record := (gmap string pyvalue).

(** ** [str] methods, on ASCII text *)

Module PyStr.

(** [c.isspace()] for the ASCII range: TAB, LF, VT, FF, CR, the four
    separators 0x1c-0x1f and the space. *)
Definition isspace (c : ascii) : bool :=
  let n := nat_of_ascii c in
  ((9 <=? n)%nat && (n <=? 13)%nat) || ((28 <=? n)%nat && (n <=? 32)%nat).

Definition isdigit (c : ascii) : bool :=
  let n := nat_of_ascii c in (48 <=? n)%nat && (n <=? 57)%nat.

Definition lower_char (c : ascii) : ascii :=
  let n := nat_of_ascii c in
  if (65 <=? n)%nat && (n <=? 90)%nat then ascii_of_nat (n + 32) else c.

(** [s.lower()] *)
Fixpoint lower (s : string) : string :=
  match s with
  | EmptyString => EmptyString
  | String c s' => String (lower_char c) (lower s')
  end.

Fixpoint lstrip (s : string) : string :=
  match s with
  | EmptyString => EmptyString
  | String c s' => if isspace c then lstrip s' else s
  end.

Fixpoint rstrip (s : string) : string :=
  match s with
  | EmptyString => EmptyString
  | String c s' =>
      match rstrip s' with
      | EmptyString => if isspace c then EmptyString else String c EmptyString
      | r => String c r
      end
  end.

(** [s.strip()] *)
Definition strip (s : string) : string := rstrip (lstrip s).

(** [sep in s] for a one-character [sep] *)
Fixpoint contains (sep : ascii) (s : string) : bool :=
  match s with
  | EmptyString => false
  | String c s' => if Ascii.eqb c sep then true else contains sep s'
  end.

(** [s.split(sep)] for a one-character [sep]: never the empty list. *)
Fixpoint split (sep : ascii) (s : string) : list string :=
  match s with
  | EmptyString => [EmptyString]
  | String c s' =>
      if Ascii.eqb c sep then EmptyString :: split sep s'
      else match split sep s' with
           | h :: t => String c h :: t
           | [] => [String c EmptyString]
           end
  end.

(** [s.split(sep, 1)]: cut at the first separator only. *)
Fixpoint split1 (sep : ascii) (s : string) : list string :=
  match s with
  | EmptyString => [EmptyString]
  | String c s' =>
      if Ascii.eqb c sep then [EmptyString; s']
      else match split1 sep s' with
           | h :: t => String c h :: t
           | [] => [String c EmptyString]
           end
  end.

End PyStr.

(** ** The builtins [int()] and [float()] applied to a [str]

    Both either return a number or raise [ValueError]; [None] stands for
    the [ValueError]. The service is written against this interface; the
    instance [ascii_builtins] below implements the grammar of the two
    builtins for ASCII text. *)

Class PyBuiltins : Type := {
  py_int : string -> option Z;
  py_float : string -> option pyfloat;
}.

Module Grammar.

(** The white space that [int()] and [float()] skip around an ASCII text:
    TAB, LF, VT, FF, CR and the space (not the separators 0x1c-0x1f that
    [str.strip] removes). *)
Definition isspace (c : ascii) : bool :=
  let n := nat_of_ascii c in
  ((9 <=? n)%nat && (n <=? 13)%nat) || (n =? 32)%nat.

Fixpoint lstrip (s : string) : string :=
  match s with
  | EmptyString => EmptyString
  | String c s' => if isspace c then lstrip s' else s
  end.

Fixpoint rstrip (s : string) : string :=
  match s with
  | EmptyString => EmptyString
  | String c s' =>
      match rstrip s' with
      | EmptyString => if isspace c then EmptyString else String c EmptyString
      | r => String c r
      end
  end.

Definition strip (s : string) : string := rstrip (lstrip s).

Definition digit_val (c : ascii) : option N :=
  if PyStr.isdigit c then Some (N_of_ascii c - 48)%N else None.

(** The tail [(["_"] digit)*] of a [digitpart]; returns the accumulated
    number, the count of digits read and the unread rest. *)
Fixpoint digitpart_tail (acc : N) (nd : nat) (s : string) : N * nat * string :=
  match s with
  | EmptyString => (acc, nd, s)
  | String c s' =>
      match digit_val c with
      | Some d => digitpart_tail (acc * 10 + d)%N (S nd) s'
      | None =>
          if Ascii.eqb c "_" then
            match s' with
            | String c2 s'' =>
                match digit_val c2 with
                | Some d => digitpart_tail (acc * 10 + d)%N (S nd) s''
                | None => (acc, nd, s)
                end
            | EmptyString => (acc, nd, s)
            end
          else (acc, nd, s)
      end
  end.

(** [digitpart ::= digit (["_"] digit)*] *)
Definition digitpart (s : string) : option (N * nat * string) :=
  match s with
  | EmptyString => None
  | String c s' =>
      match digit_val c with
      | Some d => Some (digitpart_tail d 1 s')
      | None => None
      end
  end.

(** An optional sign: [(negative, rest)]. *)
Definition sign (s : string) : bool * string :=
  match s with
  | String "-" s' => (true, s')
  | String "+" s' => (false, s')
  | _ => (false, s)
  end.

(** [int(s)] in base 10: surrounding whitespace, a sign, a [digitpart] of
    at most 4300 digits (the default limit of the conversion). *)
Definition int_of_str (s : string) : option Z :=
  let (neg, t) := sign (strip s) in
  match digitpart t with
  | Some (n, nd, EmptyString) =>
      if (4300 <? nd)%nat then None
      else Some (if neg then - Z.of_N n else Z.of_N n)
  | _ => None
  end.

(** [exponent ::= ("e" | "E") [sign] digitpart]; an absent exponent is 0. *)
Definition exponent (s : string) : option Z :=
  match s with
  | EmptyString => Some 0
  | String c s' =>
      if Ascii.eqb c "e" || Ascii.eqb c "E" then
        let (neg, t) := sign s' in
        match digitpart t with
        | Some (n, _, EmptyString) => Some (if neg then - Z.of_N n else Z.of_N n)
        | _ => None
        end
      else None
  end.

(** [number ::= [digitpart] "." digitpart | digitpart ["."]], followed by
    the optional exponent. *)
Definition floatnumber (neg : bool) (s : string) : option pyfloat :=
  match s with
  | String "." s' =>
      match digitpart s' with
      | Some (f, nf, r) =>
          e ← exponent r; Some (FDec neg f (e - Z.of_nat nf))
      | None => None
      end
  | _ =>
      match digitpart s with
      | Some (i, _, String "." r) =>
          match digitpart r with
          | Some (f, nf, r') =>
              e ← exponent r';
              Some (FDec neg (i * 10 ^ N.of_nat nf + f)%N (e - Z.of_nat nf))
          | None => e ← exponent r; Some (FDec neg i e)
          end
      | Some (i, _, r) => e ← exponent r; Some (FDec neg i e)
      | None => None
      end
  end.

(** [float(s)]: surrounding whitespace, a sign, then [inf], [infinity],
    [nan] (in any case) or a [floatnumber]. *)
Definition float_of_str (s : string) : option pyfloat :=
  let (neg, t) := sign (strip s) in
  let l := PyStr.lower t in
  if String.eqb l "inf" || String.eqb l "infinity" then Some (FInf neg)
  else if String.eqb l "nan" then Some FNan
  else floatnumber neg t.

End Grammar.

Definition ascii_builtins : PyBuiltins :=
  {| py_int := Grammar.int_of_str; py_float := Grammar.float_of_str |}.

(** ** [SimpleTelemetryParser] *)

Module Parser.
Section WithBuiltins.
Context {B : PyBuiltins}.

(** [_convert_value]: [int(value)] when the text has no ["."], else
    [float(value)]; a [ValueError] of either gives the text back. *)
Definition _convert_value (value : string) : pyvalue :=
  if negb (PyStr.contains "." value) then
    match py_int value with
    | Some n => VInt n
    | None => VStr value
    end
  else
    match py_float value with
    | Some f => VFloat f
    | None => VStr value
    end.

(** One [key:value] pair of the loop body (also the single pair of the
    branch without comma): pairs without [":"] are skipped. *)
Definition parse_pair (parsed_data : record) (pair : string) : result record :=
  if PyStr.contains ":" pair then
    match PyStr.split1 ":" pair with
    | [key; value] =>
        Ok (<[PyStr.lower (PyStr.strip key) := _convert_value (PyStr.strip value)]>
              parsed_data)
    | _ => Raise (ValueError "not enough values to unpack (expected 2, got 1)")
    end
  else Ok parsed_data.

Fixpoint parse_pairs (parsed_data : record) (pairs : list string) : result record :=
  match pairs with
  | [] => Ok parsed_data
  | item :: rest => rbind (parse_pair parsed_data item) (fun d => parse_pairs d rest)
  end.

Definition add_metadata (raw_data : pyvalue) (parsed_data : record) : record :=
  <["data_source" := VStr "flask_api"]>
    (<["parser_version" := VStr "1.0"]>
       (<["raw_data" := raw_data]> parsed_data)).

(** The [try] block of [parse_telemetry_line]. The argument is annotated
    [str], but any object can be passed: on anything else the first test
    [',' in raw_data] raises [TypeError]. *)
Definition parse_body (raw_data : pyvalue) : result record :=
  match raw_data with
  | VStr raw =>
      rbind
        (if PyStr.contains "," raw
         then parse_pairs ∅ (PyStr.split "," (PyStr.strip raw))
         else parse_pair ∅ raw)
        (fun parsed_data => Ok (add_metadata raw_data parsed_data))
  | _ =>
      Raise (TypeError ("argument of type '" +:+ type_name raw_data
                          +:+ "' is not iterable"))
  end.

Definition error_record (raw_data : pyvalue) (e : exn) : record :=
  <["raw_data" := raw_data]>
    (<["parser_version" := VStr "1.0"]>
       (<["data_source" := VStr "flask_api"]>
          (<["parse_error" := VStr (str_of_exn e)]> ∅))).

Definition parse_telemetry_line (raw_data : pyvalue) : record :=
  match parse_body raw_data with
  | Ok parsed_data => parsed_data
  | Raise e => error_record raw_data e
  end.

End WithBuiltins.
End Parser.

(** ** The process state and the external collaborators *)

(** References to [dict] objects. *)
Abbreviation loc := positive.

(** The remote table as seen through the Supabase client: each call takes
    the remote state to a new one and either returns [response.data] or
    raises. The clock gives the text of [datetime.utcnow().isoformat()] at
    each reading. *)
Class Supabase (R : Type) : Type := {
  (** [client.table("telemetry").insert(rows).execute()] *)
  insert_execute : R -> list record -> result (list record) * R;
  (** [client.table('telemetry').select('count').limit(1).execute()] *)
  select_count_execute : R -> result (list record) * R;
  (** [client.table('telemetry').select('*').order(order_by, desc=desc)
      .range(lo, hi).execute()] *)
  select_range_execute : R -> string -> bool -> Z -> Z -> result (list record) * R;
  utcnow_isoformat : nat -> string;
}.

(** What the process does to the outside, in the order it happens, with
    marks for the entries into [flush_batch] and [_write_chunk_with_retry]. *)
Inductive event : Type :=
| CallFlush
| CallWriteChunk (chunk_idx : nat) (chunk : list loc)
| RemoteInsert (rows : list record)
| Sleep (seconds : Q)
| RemoteSelectCount
| RemoteSelectRange (order_by : string) (desc : bool) (lo hi : Z).

(** The fields of a [TelemetryStorage] object. *)
Record TelemetryStorage : Type := mkStorage {
  batch_size : Z;
  max_retries : Z;
  pending_batch : list loc;
}.

Record state (R : Type) : Type := mkState {
  telemetry_storage : TelemetryStorage;  (* the global storage instance *)
  heap : gmap loc record;                (* the [dict] objects *)
  remote : R;
  clock : nat;                           (* readings of the clock so far *)
  trace : list event;
}.
Arguments mkState {R}.
Arguments telemetry_storage {R}.
Arguments heap {R}.
Arguments remote {R}.
Arguments clock {R}.
Arguments trace {R}.

(** Computations that read and write the process state and may raise; a
    raise keeps the state reached so far. *)
Definition M (R A : Type) : Type := state R -> result A * state R.

Definition ret {R A} (a : A) : M R A := fun s => (Ok a, s).

Definition bind {R A B} (m : M R A) (k : A -> M R B) : M R B :=
  fun s => match m s with
           | (Ok a, s') => k a s'
           | (Raise e, s') => (Raise e, s')
           end.

Definition raise {R A} (e : exn) : M R A := fun s => (Raise e, s).

(** [try: m except Exception as e: h e] *)
Definition try_except {R A} (m : M R A) (h : exn -> M R A) : M R A :=
  fun s => match m s with
           | (Ok a, s') => (Ok a, s')
           | (Raise e, s') => h e s'
           end.

Definition lift {R A} (r : result A) : M R A := fun s => (r, s).

Declare Scope py_scope.
Delimit Scope py_scope with py.
Notation "x <- m ;; k" := (bind m (fun x => k))
  (at level 100, m at next level, right associativity) : py_scope.
Notation "m ;; k" := (bind m (fun _ => k))
  (at level 100, right associativity) : py_scope.

Section Primitives.
Context {R : Type} {SB : Supabase R}.
Local Open Scope py_scope.

Definition emit (e : event) : M R unit :=
  fun s => (Ok tt, mkState (telemetry_storage s) (heap s) (remote s) (clock s)
                           (trace s ++ [e])).

Definition get_storage : M R TelemetryStorage :=
  fun s => (Ok (telemetry_storage s), s).

Definition set_pending_batch (l : list loc) : M R unit :=
  fun s => (Ok tt,
            mkState (mkStorage (batch_size (telemetry_storage s))
                               (max_retries (telemetry_storage s)) l)
                    (heap s) (remote s) (clock s) (trace s)).

(** Reading a [dict] through a reference. *)
Definition deref (l : loc) : M R record :=
  fun s => (Ok (default ∅ (heap s !! l)), s).

(** [d[key] = v] on the object at [l]. *)
Definition setitem (l : loc) (key : string) (v : pyvalue) : M R unit :=
  fun s => (Ok tt,
            mkState (telemetry_storage s)
                    (<[l := <[key := v]> (default ∅ (heap s !! l))]> (heap s))
                    (remote s) (clock s) (trace s)).

(** A new [dict] object with the given content. *)
Definition alloc (d : record) : M R loc :=
  fun s => let l := fresh (dom (heap s)) in
           (Ok l, mkState (telemetry_storage s) (<[l := d]> (heap s))
                          (remote s) (clock s) (trace s)).

(** [datetime.utcnow().isoformat()] *)
Definition utcnow : M R string :=
  fun s => (Ok (utcnow_isoformat (clock s)),
            mkState (telemetry_storage s) (heap s) (remote s) (S (clock s))
                    (trace s)).

(** What [time.sleep(seconds)] does before it sleeps: the delay is turned
    into nanoseconds held in a signed 64-bit integer, which raises when it
    does not fit, and a negative delay is refused. (The nanoseconds are
    rounded to a whole number; for the delays of this program, powers of
    two, that changes nothing.) *)
Definition sleep_outcome (seconds : Q) : result unit :=
  let ns := (seconds * inject_Z (10 ^ 9))%Q in
  if Qle_bool (inject_Z (2 ^ 63)) ns || negb (Qle_bool (inject_Z (- 2 ^ 63)) ns)
  then Raise (OverflowError "timestamp too large to convert to C _PyTime_t")
  else if negb (Qle_bool 0 seconds)
       then Raise (ValueError "sleep length must be non-negative")
       else Ok tt.

(** [time.sleep(seconds)] *)
Definition sleep (seconds : Q) : M R unit :=
  _ <- lift (sleep_outcome seconds) ;; emit (Sleep seconds).

Definition with_remote {A} (ev : event) (call : R -> result A * R) : M R A :=
  fun s => let (r, rem) := call (remote s) in
           (r, mkState (telemetry_storage s) (heap s) rem (clock s)
                       (trace s ++ [ev])).

(** [supabase_client.client.table("telemetry").insert(chunk).execute()]:
    the rows sent are the contents of the referenced objects at the time
    of the call. *)
Definition remote_insert (chunk : list loc) : M R (list record) :=
  fun s => let rows := map (fun l => default ∅ (heap s !! l)) chunk in
           with_remote (RemoteInsert rows) (fun r => insert_execute r rows) s.

(** [supabase_client.health_check()] *)
Definition health_check : M R bool :=
  try_except
    (_ <- with_remote RemoteSelectCount select_count_execute ;; ret true)
    (fun _ => ret false).

End Primitives.

(** ** [TelemetryStorage] *)

Module Storage.

(** [range(0, stop, step)] for [0 <= stop]: raises for a zero step and is
    empty for a negative one. *)
Definition range_step (stop : nat) (step : Z) : result (list nat) :=
  if step =? 0 then Raise (ValueError "range() arg 3 must not be zero")
  else if step <? 0 then Ok []
  else
    let st := Z.to_nat step in
    Ok (map (fun k => k * st)%nat (seq 0 ((stop + st - 1) / st)%nat)).

(** [[data[i:i + batch_size] for i in range(0, len(data), batch_size)]] *)
Definition chunks_of {A} (batch_size : Z) (data : list A) : result (list (list A)) :=
  rbind (range_step (length data) batch_size)
        (fun starts =>
           Ok (map (fun i => take (Z.to_nat batch_size) (drop i data)) starts)).

(** [enumerate(l)], counting from [start] *)
Fixpoint enumerate_from {A} (start : nat) (l : list A) : list (nat * A) :=
  match l with
  | [] => []
  | x :: l' => (start, x) :: enumerate_from (S start) l'
  end.

(** [(2 ** attempt) * 0.5]: the power is an [int], converted to a float
    for the product, which raises when it does not fit (from [2 ** 1024]
    on); below that the product is exact. *)
Definition wait_time (attempt : nat) : result Q :=
  if (attempt <? 1024)%nat
  then Ok (inject_Z (2 ^ Z.of_nat attempt) * (1 # 2))%Q
  else Raise (OverflowError "int too large to convert to float").

Section WithSupabase.
Context {R : Type} {SB : Supabase R}.
Local Open Scope py_scope.

(** One round of the loop of [_write_chunk_with_retry]; [true] stands for
    the [return True] inside the [try]. An exception of the handler
    itself is not caught. *)
Definition attempt_insert (chunk : list loc) (attempt : nat) : M R bool :=
  try_except
    (data <- remote_insert chunk ;;
     ret (match data with [] => false | _ :: _ => true end))
    (fun e =>
       t <- lift (wait_time attempt) ;;
       st <- get_storage ;;
       if Z.of_nat attempt <? max_retries st - 1
       then (sleep t ;; ret false)
       else ret false).

(** [for attempt in <attempts>: ...; return False] *)
Fixpoint retry_loop (chunk : list loc) (attempts : list nat) : M R bool :=
  match attempts with
  | [] => ret false
  | attempt :: rest =>
      written <- attempt_insert chunk attempt ;;
      if written then ret true else retry_loop chunk rest
  end.

Definition _write_chunk_with_retry (chunk : list loc) (chunk_idx : nat) : M R bool :=
  emit (CallWriteChunk chunk_idx chunk) ;;
  st <- get_storage ;;
  retry_loop chunk (seq 0 (Z.to_nat (max_retries st))).

(** [for chunk_idx, chunk in <items>: ...; return True] *)
Fixpoint write_chunks (items : list (nat * list loc)) : M R bool :=
  match items with
  | [] => ret true
  | (chunk_idx, chunk) :: rest =>
      success <- _write_chunk_with_retry chunk chunk_idx ;;
      if negb success then ret false else write_chunks rest
  end.

Definition _write_telemetry_batch (data : list loc) : M R bool :=
  match data with
  | [] => ret true
  | _ :: _ =>
      st <- get_storage ;;
      chunks <- lift (chunks_of (batch_size st) data) ;;
      write_chunks (enumerate_from 0 chunks)
  end.

Definition flush_batch : M R bool :=
  emit CallFlush ;;
  st <- get_storage ;;
  match pending_batch st with
  | [] => ret true
  | _ :: _ =>
      try_except
        (success <- _write_telemetry_batch (pending_batch st) ;;
         if success
         then (set_pending_batch [] ;; ret success)
         else ret success)
        (fun _ => ret false)
  end.

Definition add_telemetry_data (telemetry_data : loc) : M R bool :=
  try_except
    (d <- deref telemetry_data ;;
     match d !! "created_at" with
     | None =>
         now <- utcnow ;;
         setitem telemetry_data "created_at" (VStr now)
     | Some _ => ret tt
     end ;;
     st <- get_storage ;;
     set_pending_batch (pending_batch st ++ [telemetry_data]) ;;
     st <- get_storage ;;
     if Z.of_nat (length (pending_batch st)) >=? batch_size st
     then flush_batch
     else ret true)
    (fun _ => ret false).

Record BatchStatus : Type := mkStatus {
  pending_records : nat;
  status_batch_size : Z;
  batch_full : bool;
  supabase_healthy : bool;
}.

Definition get_batch_status : M R BatchStatus :=
  st <- get_storage ;;
  healthy <- health_check ;;
  ret (mkStatus (length (pending_batch st)) (batch_size st)
                (Z.of_nat (length (pending_batch st)) >=? batch_size st)
                healthy).

End WithSupabase.
End Storage.

(** ** The Flask routes *)

Module Api.

(** The JSON bodies of the responses. *)
Inductive body : Type :=
| ErrorBody (error : string) (timestamp : option string)
| ParseBody (success : bool) (parsed_data : record) (timestamp : string)
            (stored : option bool) (batch_status : option Storage.BatchStatus)
| FlushBody (success : bool) (message : string)
            (batch_status : Storage.BatchStatus) (timestamp : string)
| QueryBody (success : bool) (data : list record) (count : nat)
            (limit offset : Z) (timestamp : string).

Section WithEnv.
Context {B : PyBuiltins} {R : Type} {SB : Supabase R}.
Local Open Scope py_scope.

(** [datetime.utcnow().isoformat()] through the parser object *)
Definition get_current_timestamp : M R string := utcnow.

(** [int(request.args.get(name, dflt))] *)
Definition int_arg (arg : option string) (dflt : Z) : result Z :=
  match arg with
  | None => Ok dflt
  | Some s =>
      match py_int s with
      | Some n => Ok n
      | None =>
          Raise (ValueError ("invalid literal for int() with base 10: '"
                               +:+ s +:+ "'"))
      end
  end.

(** [request.args.get(name, 'true').lower() == 'true'] *)
Definition flag_arg (arg : option string) : bool :=
  String.eqb (PyStr.lower (default "true" arg)) "true".

(** [POST /telemetry/parse]: the body text and the [store] argument. The
    response holds a reference to the parsed [dict]; it is read when the
    response is serialised, at the end. *)
Definition parse_telemetry (raw_data : string) (store : option string)
  : M R (Z * body) :=
  try_except
    (match raw_data with
     | EmptyString => ret (400, ErrorBody "No telemetry data provided" None)
     | String _ _ =>
         parsed_data <- alloc (Parser.parse_telemetry_line (VStr raw_data)) ;;
         let store_data := flag_arg store in
         timestamp <- get_current_timestamp ;;
         extra <- (if store_data
                   then (storage_success <- Storage.add_telemetry_data parsed_data ;;
                         status <- Storage.get_batch_status ;;
                         ret (Some storage_success, Some status))
                   else ret (None, None)) ;;
         d <- deref parsed_data ;;
         ret (200, ParseBody true d timestamp (fst extra) (snd extra))
     end)
    (fun e =>
       timestamp <- get_current_timestamp ;;
       ret (500, ErrorBody ("Failed to parse telemetry: " +:+ str_of_exn e)
                           (Some timestamp))).


(** [GET /telemetry/query]: the arguments [limit], [offset], [order_by]
    and [desc], each absent or a text. *)
Definition query_telemetry (limit offset order_by desc : option string)
  : M R (Z * body) :=
  try_except
    (limit <- lift (int_arg limit 100) ;;
     offset <- lift (int_arg offset 0) ;;
     let order_by := default "created_at" order_by in
     let order_desc := flag_arg desc in
     data <- with_remote
               (RemoteSelectRange order_by order_desc offset (offset + limit - 1))
               (fun r => select_range_execute r order_by order_desc
                                              offset (offset + limit - 1)) ;;
     timestamp <- get_current_timestamp ;;
     ret (200, QueryBody true data (length data) limit offset timestamp))
    (fun e =>
       timestamp <- get_current_timestamp ;;
       ret (500, ErrorBody ("Failed to query telemetry: " +:+ str_of_exn e)
                           (Some timestamp))).

End WithEnv.
End Api.

(** ** Reading a trace *)

Definition chunk_calls (tr : list event) : list (nat * list loc) :=
  omap (fun ev => match ev with
                  | CallWriteChunk i c => Some (i, c)
                  | _ => None
                  end) tr.

Definition inserts (tr : list event) : list (list record) :=
  omap (fun ev => match ev with RemoteInsert rows => Some rows | _ => None end) tr.

Definition sleeps (tr : list event) : list Q :=
  omap (fun ev => match ev with Sleep q => Some q | _ => None end) tr.

Definition is_flush (ev : event) : bool :=
  match ev with CallFlush => true | _ => false end.

Definition flushes (tr : list event) : nat := length (List.filter is_flush tr).

Definition is_remote_call (ev : event) : bool :=
  match ev with
  | RemoteInsert _ | RemoteSelectCount | RemoteSelectRange _ _ _ _ => true
  | _ => false
  end.

Definition remote_calls (tr : list event) : list event :=
  List.filter is_remote_call tr.

(** ** Descriptions used in the statements *)

(** Events of a single chunk write: remote inserts and sleeps. *)
Definition is_attempt_event (ev : event) : bool :=
  match ev with RemoteInsert _ | Sleep _ => true | _ => false end.

(** Events of a batch write: chunk writes entered, inserts and sleeps. *)
Definition is_write_event (ev : event) : bool :=
  match ev with
  | CallWriteChunk _ _ | RemoteInsert _ | Sleep _ => true
  | _ => false
  end.

(** [0.5 * 2^attempt] seconds *)
Definition backoff (attempt : nat) : Q :=
  (inject_Z (2 ^ Z.of_nat attempt) * (1 # 2))%Q.

(** An attempt fails when the insert raises or confirms nothing. *)
Definition failed (o : result (list record)) : bool :=
  match o with Ok (_ :: _) => false | _ => true end.

Definition raised (o : result (list record)) : bool :=
  match o with Raise _ => true | Ok _ => false end.

(** The events of successive failed attempts numbered from [attempt], with
    the given outcomes: each insert, followed by a sleep when the insert
    raised and the attempt is not the last of [max_retries]. *)
Fixpoint attempt_events (rows : list record) (max_retries : Z) (attempt : nat)
    (outs : list (result (list record))) : list event :=
  match outs with
  | [] => []
  | o :: outs' =>
      RemoteInsert rows
        :: (if raised o && (Z.of_nat attempt <? max_retries - 1)
            then [Sleep (backoff attempt)] else [])
        ++ attempt_events rows max_retries (S attempt) outs'
  end.

(** The record once [created_at] is set where it was missing. *)
Definition stamped (now : string) (d : record) : record :=
  match d !! "created_at" with
  | None => <["created_at" := VStr now]> d
  | Some _ => d
  end.

Section Descriptions.
Context {R : Type} {SB : Supabase R}.
Import Storage.

(** A step that leaves the storage object, the heap and the clock alone
    and adds [evs] to the trace. *)
Record write_step (s s' : state R) (evs : list event) : Prop := mkWriteStep {
  ws_storage : telemetry_storage s' = telemetry_storage s;
  ws_heap : heap s' = heap s;
  ws_clock : clock s' = clock s;
  ws_trace : trace s' = trace s ++ evs;
}.

(** The rows an insert of [chunk] sends in state [s]. *)
Definition rows_of (s : state R) (chunk : list loc) : list record :=
  map (fun l => default ∅ (heap s !! l)) chunk.

(** The state once [ev] is recorded, and the state with another pending
    batch. *)
Definition after_event (s : state R) (ev : event) : state R :=
  mkState (telemetry_storage s) (heap s) (remote s) (clock s) (trace s ++ [ev]).

Definition with_pending (s : state R) (l : list loc) : state R :=
  mkState (mkStorage (batch_size (telemetry_storage s))
                     (max_retries (telemetry_storage s)) l)
          (heap s) (remote s) (clock s) (trace s).

(** The state after the insert of an attempt. *)
Definition after_insert (s : state R) (chunk : list loc) : state R :=
  mkState (telemetry_storage s) (heap s)
          (snd (insert_execute (remote s) (rows_of s chunk))) (clock s)
          (trace s ++ [RemoteInsert (rows_of s chunk)]).

(** The outcomes of [n] successive inserts of [rows], from remote state
    [r] on. *)
Fixpoint insert_outcomes (r : R) (rows : list record) (n : nat)
  : list (result (list record)) :=
  match n with
  | O => []
  | S n' =>
      let (o, r') := insert_execute r rows in
      o :: insert_outcomes r' rows n'
  end.

(** The state once the object at [l] is stamped (reading the clock when
    [created_at] is missing) and [l] is appended to the pending batch. *)
Definition buffered (l : loc) (s : state R) : state R :=
  let d := default ∅ (heap s !! l) in
  let st := mkStorage (batch_size (telemetry_storage s))
                      (max_retries (telemetry_storage s))
                      (pending_batch (telemetry_storage s) ++ [l]) in
  match d !! "created_at" with
  | None =>
      mkState st (<[l := stamped (utcnow_isoformat (clock s)) d]> (heap s))
              (remote s) (S (clock s)) (trace s)
  | Some _ => mkState st (heap s) (remote s) (clock s) (trace s)
  end.

(** A run of successive [add_telemetry_data] calls. *)
Fixpoint add_all (ls : list loc) : M R (list bool) :=
  match ls with
  | [] => ret []
  | l :: rest =>
      bind (add_telemetry_data l)
           (fun b => bind (add_all rest) (fun bs => ret (b :: bs)))
  end.

End Descriptions.

Section Slices.
Context {A : Type}.

(** The slices [data[k*st : k*st + st]] for [k < m]. *)
Definition slices (st m : nat) data : list (list A) :=
  map (fun i => take st (drop i data)) (map (fun k => k * st)%nat (seq 0 m)).

End Slices.

(** ** Concrete collaborators, for running the model *)

Module Fixtures.

Definition stamp (n : nat) : string :=
  "2024-01-01T00:00:0" +:+ String (ascii_of_nat (48 + n mod 10)) EmptyString.

(** A remote table scripted by a list of outcomes, one per insert:
    [Some true] confirms the rows, [Some false] returns an empty
    confirmation, [None] raises. When the script is used up every insert
    confirms. Queries return no row. *)
Definition scripted_insert (script : list (option bool)) (rows : list record)
  : result (list record) * list (option bool) :=
  match script with
  | [] => (Ok rows, [])
  | Some true :: rest => (Ok rows, rest)
  | Some false :: rest => (Ok [], rest)
  | None :: rest => (Raise (RemoteError "connection refused"), rest)
  end.

Definition scripted : Supabase (list (option bool)) :=
  {| insert_execute := scripted_insert;
     select_count_execute := fun r => (Ok [], r);
     select_range_execute := fun r _ _ _ _ => (Ok [], r);
     utcnow_isoformat := stamp |}.

Definition init (bs mr : Z) (pending : list loc) (h : gmap loc record)
           (script : list (option bool)) : state (list (option bool)) :=
  mkState (mkStorage bs mr pending) h script 0%nat [].

Definition rec1 : record := {[ "alt" := VInt 150 ]}.
Definition heap3 : gmap loc record :=
  {[ 1%positive := rec1; 2%positive := rec1; 3%positive := rec1 ]}.

(** One record pending, a remote store that raises three times. *)
Definition s_down := init 500 3 [1%positive] heap3 [None; None; None].
(** One record pending, a remote store that confirms. *)
Definition s_up := init 500 3 [1%positive] heap3 [].
(** Nothing pending. *)
Definition s_idle := init 500 3 [] heap3 [].
(** Three records pending with batch size one; every insert confirmed. *)
Definition s_three := init 1 3 [1; 2; 3]%positive heap3 [].
(** The same with a single attempt per chunk, the second insert raising. *)
Definition s_second_fails := init 1 1 [1; 2; 3]%positive heap3 [Some true; None].

(** One record pending, a remote store that returns three empty
    confirmations. *)
Definition s_unconfirmed :=
  init 500 3 [1%positive] heap3 [Some false; Some false; Some false].

(** Nothing pending, batch size two, a remote store that confirms. *)
Definition s_two := init 2 3 [] heap3 [].

End Fixtures.

(** ** [SupabaseClient], the client singleton *)

Module Client.

(** The Supabase library: [create_client(url, key)] and the probe
    [client.table('telemetry').select('count').limit(1).execute()]. *)
Class SupabaseLib (C : Type) : Type := {
  create_client : string -> string -> result C;
  probe : C -> result unit;
}.

(** The two environment variables, each unset or a text. *)
Record environ : Type := mkEnviron {
  SUPABASE_URL : option string;
  SUPABASE_SERVICE_ROLE_KEY : option string;
}.

(** The one instance: its [_client] attribute, and the number of calls of
    [create_client] made so far. *)
Record SupabaseClient (C : Type) : Type := mkClient {
  _client : option C;
  created : nat;
}.
Arguments mkClient {C}.
Arguments _client {C}.
Arguments created {C}.

(** A value of [os.getenv] that is not falsy: set and not empty. *)
Definition truthy (v : option string) : option string :=
  match v with
  | Some (String c s) => Some (String c s)
  | _ => None
  end.

Section WithLib.
Context {C : Type} {L : SupabaseLib C}.
Variable env : environ.

(** [_initialize_client]: the handler logs and raises the exception again. *)
Definition _initialize_client (self : SupabaseClient C)
  : result unit * SupabaseClient C :=
  match truthy (SUPABASE_URL env), truthy (SUPABASE_SERVICE_ROLE_KEY env) with
  | Some supabase_url, Some supabase_key =>
      match create_client supabase_url supabase_key with
      | Ok c => (Ok tt, mkClient (Some c) (S (created self)))
      | Raise e => (Raise e, mkClient (_client self) (S (created self)))
      end
  | _, _ =>
      (Raise (ValueError "Missing Supabase credentials in environment variables"),
       self)
  end.

(** [SupabaseClient()]: [__new__] hands out the one instance and
    [__init__] runs on it. *)
Definition __init__ (self : SupabaseClient C) : result unit * SupabaseClient C :=
  match _client self with
  | None => _initialize_client self
  | Some _ => (Ok tt, self)
  end.

(** The property [client]: what [self._client] holds after the lazy
    initialisation. *)
Definition client (self : SupabaseClient C) : result (option C) * SupabaseClient C :=
  match _client self with
  | None =>
      match _initialize_client self with
      | (Ok _, self') => (Ok (_client self'), self')
      | (Raise e, self') => (Raise e, self')
      end
  | Some c => (Ok (Some c), self)
  end.

(** [health_check]: any exception, also the one of calling [table] on
    [None], gives [False]. *)
Definition health_check (self : SupabaseClient C) : bool * SupabaseClient C :=
  match client self with
  | (Ok (Some c), self') =>
      match probe c with
      | Ok _ => (true, self')
      | Raise _ => (false, self')
      end
  | (Ok None, self') => (false, self')
  | (Raise _, self') => (false, self')
  end.

End WithLib.
End Client.

(** ** The routes [/health] and [/telemetry/batch/status] *)

Module Routes.

Inductive body : Type :=
| HealthBody (status : string) (timestamp : string) (supabase_connected : bool)
             (batch_status : Storage.BatchStatus)
| UnhealthyBody (status : string) (error : string)
| StatusBody (batch_status : Storage.BatchStatus) (timestamp : string)
| StatusErrorBody (error : string) (timestamp : string).

Section WithEnv.
Context {R : Type} {SB : Supabase R}.
Local Open Scope py_scope.

(** [GET /health] *)
Definition health_check : M R (Z * body) :=
  try_except
    (supabase_healthy <- health_check ;;
     batch_status <- Storage.get_batch_status ;;
     timestamp <- Api.get_current_timestamp ;;
     ret (200, HealthBody "healthy" timestamp supabase_healthy batch_status))
    (fun e => ret (500, UnhealthyBody "unhealthy" (str_of_exn e))).

(** [GET /telemetry/batch/status] *)
Definition get_batch_status : M R (Z * body) :=
  try_except
    (batch_status <- Storage.get_batch_status ;;
     timestamp <- Api.get_current_timestamp ;;
     ret (200, StatusBody batch_status timestamp))
    (fun e =>
       timestamp <- Api.get_current_timestamp ;;
       ret (500, StatusErrorBody ("Failed to get batch status: " +:+ str_of_exn e)
                                 timestamp)).

End WithEnv.
End Routes.

(** ** More descriptions *)



(** A row with its [created_at]. *)
Definition has_created_at (row : record) : Prop := is_Some (row !! "created_at").

Section MoreDescriptions.
Context {R : Type} {SB : Supabase R}.

(** Every pending record has its [created_at]. *)
Definition stamped_pending (s : state R) : Prop :=
  forall l, l ∈ pending_batch (telemetry_storage s) ->
            is_Some (default ∅ (heap s !! l) !! "created_at").

(** A remote store that confirms every insert of at least one row. *)
Definition confirming : Prop :=
  forall (r : R) (rows : list record),
  rows <> [] -> exists x xs r', insert_execute r rows = (Ok (x :: xs), r').

(** The events of chunk writes that each succeed at the first insert. *)
Definition first_try_events (s : state R) (items : list (nat * list loc))
  : list event :=
  concat (map (fun ic => [CallWriteChunk (fst ic) (snd ic);
                          RemoteInsert (rows_of s (snd ic))]) items).

End MoreDescriptions.

(** ** More concrete collaborators *)

Module Fixtures2.

(** A remote table that confirms every insert with the rows it was given. *)
Definition echo : Supabase unit :=
  {| insert_execute := fun r rows => (Ok rows, r);
     select_count_execute := fun r => (Ok [], r);
     select_range_execute := fun r _ _ _ _ => (Ok [], r);
     utcnow_isoformat := Fixtures.stamp |}.

Definition init_echo (bs mr : Z) (pending : list loc) (h : gmap loc record)
  : state unit :=
  mkState (mkStorage bs mr pending) h tt 0%nat [].

(** A Supabase library whose [create_client] and probe always work. *)
Definition lib_ok : Client.SupabaseLib unit :=
  {| Client.create_client := fun _ _ => Ok tt; Client.probe := fun _ => Ok tt |}.

Definition env_ok : Client.environ :=
  Client.mkEnviron (Some "https://example.supabase.co") (Some "service-role-key").

(** The key is set to the empty text. *)
Definition env_no_key : Client.environ :=
  Client.mkEnviron (Some "https://example.supabase.co") (Some "").

End Fixtures2.

(** Unfolding of the primitive actions. *)
Ltac step_py :=
  unfold bind, ret, raise, try_except, lift, emit, get_storage,
    set_pending_batch, deref, setitem, alloc, utcnow, sleep, with_remote,
    remote_insert, health_check in *.
Ltac unfold_py := repeat (progress step_py); simpl in *.

(** * Properties of the parser *)

Section ParserFacts.
Context {B : PyBuiltins}.
Import Parser.

Lemma split1_of_contains sep s :
  PyStr.contains sep s = true -> exists k v, PyStr.split1 sep s = [k; v].
Proof.
  induction s as [|c s IH]; simpl; [discriminate|].
  destruct (Ascii.eqb c sep); [eauto|].
  intros H. destruct (IH H) as (k & v & ->). eauto.
Qed.

Lemma parse_pair_returns d item : exists d', parse_pair d item = Ok d'.
Proof.
  unfold parse_pair. destruct (PyStr.contains ":" item) eqn:E; [|eauto].
  destruct (split1_of_contains _ _ E) as (k & v & ->). eauto.
Qed.

Lemma parse_pairs_returns items : forall d, exists d', parse_pairs d items = Ok d'.
Proof.
  induction items as [|item items IH]; intros d; simpl; [eauto|].
  destruct (parse_pair_returns d item) as [d1 ->]. simpl. apply IH.
Qed.

Lemma parse_body_str raw :
  exists d, parse_body (VStr raw) = Ok (add_metadata (VStr raw) d).
Proof.
  unfold parse_body. destruct (PyStr.contains "," raw).
  - destruct (parse_pairs_returns (PyStr.split "," (PyStr.strip raw)) ∅) as [d ->].
    simpl. eauto.
  - destruct (parse_pair_returns ∅ raw) as [d ->]. simpl. eauto.
Qed.

Lemma add_metadata_lookup raw d :
  add_metadata raw d !! "raw_data" = Some raw
  /\ add_metadata raw d !! "parser_version" = Some (VStr "1.0")
  /\ add_metadata raw d !! "data_source" = Some (VStr "flask_api").
Proof. unfold add_metadata. by simplify_map_eq. Qed.

Lemma error_record_lookup raw e :
  error_record raw e !! "raw_data" = Some raw
  /\ error_record raw e !! "parser_version" = Some (VStr "1.0")
  /\ error_record raw e !! "data_source" = Some (VStr "flask_api")
  /\ error_record raw e !! "parse_error" = Some (VStr (str_of_exn e)).
Proof. unfold error_record. by simplify_map_eq. Qed.

Lemma error_record_dom raw e :
  dom (error_record raw e)
  = ({["raw_data"; "parser_version"; "data_source"; "parse_error"]} : gset string).
Proof.
  unfold error_record. rewrite !dom_insert_L, dom_empty_L. set_solver.
Qed.

End ParserFacts.

(** C7. [_convert_value] routes on the presence of ["."]: without it only
    [int()] is consulted (the result does not depend on what [float()]
    would answer), with it only [float()] is consulted (the result does not
    depend on [int()]); when the consulted builtin raises [ValueError] the
    text itself is the value. Inside a pair the text handed over is the
    trimmed one, so a failed parse keeps the trimmed text; ["1.2.3"] stays
    the string ["1.2.3"]. *)
Theorem convert_value_policy (B : PyBuiltins) (value : string) :
  (PyStr.contains "." value = false ->
     Parser._convert_value value
     = match py_int value with Some n => VInt n | None => VStr value end
     /\ forall B' : PyBuiltins,
         @py_int B' value = @py_int B value ->
         @Parser._convert_value B' value = @Parser._convert_value B value)
  /\ (PyStr.contains "." value = true ->
     Parser._convert_value value
     = match py_float value with Some f => VFloat f | None => VStr value end
     /\ forall B' : PyBuiltins,
         @py_float B' value = @py_float B value ->
         @Parser._convert_value B' value = @Parser._convert_value B value)
  /\ (forall (d : record) (item k v : string),
        PyStr.contains ":" item = true ->
        PyStr.split1 ":" item = [k; v] ->
        Parser.parse_pair d item
        = Ok (<[PyStr.lower (PyStr.strip k) := Parser._convert_value (PyStr.strip v)]> d)
        /\ (py_int (PyStr.strip v) = None -> py_float (PyStr.strip v) = None ->
            Parser._convert_value (PyStr.strip v) = VStr (PyStr.strip v)))
  /\ @Parser._convert_value ascii_builtins "1.2.3" = VStr "1.2.3"
  /\ @Parser.parse_telemetry_line ascii_builtins (VStr "v: 1.2.3 ,n:12") !! "v"
     = Some (VStr "1.2.3").
Proof.
  split; [|split; [|split; [|split]]].
  - intros H. unfold Parser._convert_value. rewrite H. simpl. split; [done|].
    intros B' HB. by rewrite HB.
  - intros H. unfold Parser._convert_value. rewrite H. simpl. split; [done|].
    intros B' HB. by rewrite HB.
  - intros d item k v Hc Hs. unfold Parser.parse_pair. rewrite Hc, Hs.
    split; [done|]. intros Hi Hf. unfold Parser._convert_value.
    destruct (negb _); [by rewrite Hi | by rewrite Hf].
  - vm_compute. reflexivity.
  - vm_compute. reflexivity.
Qed.

Lemma convert_value_policy_witness :
  @Parser._convert_value ascii_builtins "8" = VInt 8
  /\ @Parser._convert_value ascii_builtins "1.2.3" = VStr "1.2.3".
Proof.
  split.
  - exact (proj1 (proj1 (convert_value_policy ascii_builtins "8") eq_refl)).
  - exact (proj1 (proj1 (proj2 (convert_value_policy ascii_builtins "1.2.3")) eq_refl)).
Defined.

(** C8. For every input text the [try] block of [parse_telemetry_line]
    completes, so the call returns a record, and that record maps
    [raw_data] to the input, [parser_version] to ["1.0"] and [data_source]
    to ["flask_api"]. Whenever the block raises (which needs an argument
    that is not a text), the record returned holds these three fields and
    [parse_error], the text of the exception, and no other key. *)
Theorem parse_line_metadata (B : PyBuiltins) :
  (forall raw : string,
      (exists d, Parser.parse_body (VStr raw) = Ok d)
      /\ Parser.parse_telemetry_line (VStr raw) !! "raw_data" = Some (VStr raw)
      /\ Parser.parse_telemetry_line (VStr raw) !! "parser_version" = Some (VStr "1.0")
      /\ Parser.parse_telemetry_line (VStr raw) !! "data_source"
         = Some (VStr "flask_api"))
  /\ (forall (raw_data : pyvalue) (e : exn),
        Parser.parse_body raw_data = Raise e ->
        Parser.parse_telemetry_line raw_data
        = {[ "raw_data" := raw_data;
             "parser_version" := VStr "1.0";
             "data_source" := VStr "flask_api";
             "parse_error" := VStr (str_of_exn e) ]}
        /\ dom (Parser.parse_telemetry_line raw_data)
           = ({["raw_data"; "parser_version"; "data_source"; "parse_error"]}
              : gset string)).
Proof.
  split.
  - intros raw. unfold Parser.parse_telemetry_line.
    destruct (parse_body_str raw) as [d ->].
    split; [eauto|]. apply add_metadata_lookup.
  - intros raw_data e He. unfold Parser.parse_telemetry_line. rewrite He.
    split; [|apply error_record_dom].
    unfold Parser.error_record. by rewrite insert_empty.
Qed.

Lemma parse_line_metadata_witness :
  @Parser.parse_telemetry_line ascii_builtins VNone
  = {[ "raw_data" := VNone;
       "parser_version" := VStr "1.0";
       "data_source" := VStr "flask_api";
       "parse_error" := VStr "argument of type 'NoneType' is not iterable" ]}.
Proof.
  exact (proj1 (proj2 (parse_line_metadata ascii_builtins) VNone _ eq_refl)).
Defined.

(** * Properties of the flush engine *)

Lemma chunk_calls_app tr1 tr2 :
  chunk_calls (tr1 ++ tr2) = chunk_calls tr1 ++ chunk_calls tr2.
Proof. apply omap_app. Qed.

Lemma inserts_app tr1 tr2 : inserts (tr1 ++ tr2) = inserts tr1 ++ inserts tr2.
Proof. apply omap_app. Qed.

Lemma sleeps_app tr1 tr2 : sleeps (tr1 ++ tr2) = sleeps tr1 ++ sleeps tr2.
Proof. apply omap_app. Qed.

Lemma flushes_app tr1 tr2 : flushes (tr1 ++ tr2) = (flushes tr1 + flushes tr2)%nat.
Proof. unfold flushes. by rewrite List.filter_app, length_app. Qed.

Lemma remote_calls_app tr1 tr2 :
  remote_calls (tr1 ++ tr2) = remote_calls tr1 ++ remote_calls tr2.
Proof. apply List.filter_app. Qed.

Lemma attempt_events_quiet evs :
  forallb is_attempt_event evs = true ->
  chunk_calls evs = [] /\ flushes evs = 0%nat.
Proof.
  induction evs as [|ev evs IH]; simpl; [done|].
  intros [Hev Hevs]%andb_prop. destruct (IH Hevs) as [IH1 IH2].
  destruct ev; try discriminate; unfold flushes in *; simpl; auto.
Qed.

Lemma attempt_events_write evs :
  forallb is_attempt_event evs = true -> forallb is_write_event evs = true.
Proof.
  induction evs as [|ev evs IH]; simpl; [done|].
  intros [Hev Hevs]%andb_prop. rewrite (IH Hevs). by destruct ev.
Qed.

Lemma write_events_no_flush evs :
  forallb is_write_event evs = true -> flushes evs = 0%nat.
Proof.
  induction evs as [|ev evs IH]; simpl; [done|].
  intros [Hev Hevs]%andb_prop. specialize (IH Hevs).
  destruct ev; try discriminate; unfold flushes in *; simpl; auto.
Qed.

(** The only calls a batch write makes to the remote store are inserts. *)
Lemma write_events_only_insert evs :
  forallb is_write_event evs = true ->
  remote_calls evs = map RemoteInsert (inserts evs).
Proof.
  induction evs as [|ev evs IH]; simpl; [done|].
  intros [Hev Hevs]%andb_prop. specialize (IH Hevs).
  destruct ev; try discriminate; unfold remote_calls, inserts in *; simpl;
    by rewrite ?IH.
Qed.

Section StorageFacts.
Context {R : Type} {SB : Supabase R}.
Import Storage.

Lemma write_step_refl (s : state R) : write_step s s [].
Proof. split; try done. by rewrite app_nil_r. Qed.

Lemma write_step_trans (s1 s2 s3 : state R) e1 e2 :
  write_step s1 s2 e1 -> write_step s2 s3 e2 -> write_step s1 s3 (e1 ++ e2).
Proof.
  intros [A1 A2 A3 A4] [B1 B2 B3 B4]. split; try congruence.
  by rewrite B4, A4, app_assoc.
Qed.

Lemma attempt_insert_step chunk attempt (s : state R) r s' :
  attempt_insert chunk attempt s = (r, s') ->
  exists evs, write_step s s' evs
              /\ forallb is_attempt_event evs = true
              /\ inserts evs = [rows_of s chunk].
Proof.
  unfold attempt_insert, try_except, bind, remote_insert, with_remote, ret.
  fold (rows_of s chunk).
  destruct (insert_execute (remote s) (rows_of s chunk)) as [[data|e] r'] eqn:E;
    simpl.
  - intros [= <- <-]. exists [RemoteInsert (rows_of s chunk)]. by repeat split.
  - unfold lift, get_storage, sleep, bind, lift, emit. simpl.
    destruct (wait_time attempt) as [t|e']; simpl.
    + destruct (_ <? _); simpl; [destruct (sleep_outcome t); simpl|];
        intros [= <- <-].
      * exists [RemoteInsert (rows_of s chunk); Sleep t].
        repeat split; simpl; try done. by rewrite <- app_assoc.
      * exists [RemoteInsert (rows_of s chunk)]. by repeat split.
      * exists [RemoteInsert (rows_of s chunk)]. by repeat split.
    + intros [= <- <-]. exists [RemoteInsert (rows_of s chunk)]. by repeat split.
Qed.

Lemma retry_loop_step chunk attempts : forall (s : state R) r s',
  retry_loop chunk attempts s = (r, s') ->
  exists evs, write_step s s' evs /\ forallb is_attempt_event evs = true.
Proof.
  induction attempts as [|a attempts IH]; intros s r s'; simpl.
  - unfold ret. intros [= <- <-]. exists []. split; [apply write_step_refl|done].
  - unfold bind.
    destruct (attempt_insert chunk a s) as [[[]|e] s1] eqn:E;
      destruct (attempt_insert_step _ _ _ _ _ E) as (evs & Hstep & Hev & _).
    + unfold ret. intros [= <- <-]. eauto.
    + intros H. destruct (IH _ _ _ H) as (evs2 & Hstep2 & Hev2).
      exists (evs ++ evs2). split; [by eapply write_step_trans|].
      by rewrite forallb_app, Hev, Hev2.
    + intros [= <- <-]. eauto.
Qed.

Lemma write_chunk_step chunk chunk_idx (s : state R) r s' :
  _write_chunk_with_retry chunk chunk_idx s = (r, s') ->
  exists evs, write_step s s' (CallWriteChunk chunk_idx chunk :: evs)
              /\ forallb is_attempt_event evs = true.
Proof.
  unfold _write_chunk_with_retry, bind, emit, get_storage. simpl.
  intros H. destruct (retry_loop_step _ _ _ _ _ H) as (evs & [A1 A2 A3 A4] & Hev).
  exists evs. split; [|done]. simpl in *.
  split; try done. by rewrite A4, <- app_assoc.
Qed.

Lemma write_chunks_app_ok pre rest : forall (s s1 : state R),
  write_chunks pre s = (Ok true, s1) ->
  write_chunks (pre ++ rest) s = write_chunks rest s1.
Proof.
  induction pre as [|[i c] pre IH]; intros s s1; simpl.
  - unfold ret. by intros [= <-].
  - unfold bind. destruct (_write_chunk_with_retry c i s) as [[[]|e] s0]; simpl.
    + apply IH.
    + unfold ret. discriminate.
    + discriminate.
Qed.

(** The chunk writes entered by [write_chunks] are an initial part of
    the items, all of them when it returns [True]. *)
Lemma write_chunks_step items : forall (s : state R) r s',
  write_chunks items s = (r, s') ->
  exists evs post,
    write_step s s' evs
    /\ forallb is_write_event evs = true
    /\ items = chunk_calls evs ++ post
    /\ (r = Ok true -> post = [])
    /\ (items <> [] -> chunk_calls evs <> []).
Proof.
  induction items as [|[i c] items IH]; intros s r s'; simpl.
  - unfold ret. intros [= <- <-]. exists [], [].
    repeat split; try done. by rewrite app_nil_r.
  - unfold bind.
    destruct (_write_chunk_with_retry c i s) as [r1 s1] eqn:E.
    destruct (write_chunk_step _ _ _ _ _ E) as (evs1 & Hstep1 & Hev1).
    destruct (attempt_events_quiet _ Hev1) as [Hc1 _].
    apply attempt_events_write in Hev1.
    destruct r1 as [[]|e]; simpl.
    + intros H. destruct (IH _ _ _ H) as (evs2 & post & Hstep2 & Hw2 & Hit & Hok & _).
      exists ((CallWriteChunk i c :: evs1) ++ evs2), post.
      split; [by eapply write_step_trans|].
      rewrite forallb_app, chunk_calls_app.
      change (chunk_calls (CallWriteChunk i c :: evs1))
        with ((i, c) :: chunk_calls evs1).
      rewrite Hc1, Hw2. simpl. rewrite Hev1.
      repeat split; try done. by rewrite Hit at 1.
    + unfold ret. intros [= <- <-].
      exists (CallWriteChunk i c :: evs1), items.
      change (chunk_calls (CallWriteChunk i c :: evs1))
        with ((i, c) :: chunk_calls evs1).
      rewrite Hc1. split; [done|]. repeat split; try done.
    + intros [= <- <-].
      exists (CallWriteChunk i c :: evs1), items.
      change (chunk_calls (CallWriteChunk i c :: evs1))
        with ((i, c) :: chunk_calls evs1).
      rewrite Hc1. split; [done|]. repeat split; try done.
Qed.

Lemma write_batch_unfold data chunks (s : state R) :
  data <> [] ->
  chunks_of (batch_size (telemetry_storage s)) data = Ok chunks ->
  _write_telemetry_batch data s = write_chunks (enumerate_from 0 chunks) s.
Proof.
  intros Hd Hc. destruct data; [done|].
  unfold _write_telemetry_batch, bind, get_storage, lift. by rewrite Hc.
Qed.

Lemma write_batch_step data (s : state R) r s' :
  _write_telemetry_batch data s = (r, s') ->
  exists evs,
    write_step s s' evs
    /\ forallb is_write_event evs = true
    /\ (data = [] -> evs = [] /\ r = Ok true)
    /\ forall chunks,
        data <> [] ->
        chunks_of (batch_size (telemetry_storage s)) data = Ok chunks ->
        exists post,
          enumerate_from 0 chunks = chunk_calls evs ++ post
          /\ (r = Ok true -> post = [])
          /\ (chunks <> [] -> chunk_calls evs <> []).
Proof.
  destruct data as [|x data].
  - unfold _write_telemetry_batch, ret. intros [= <- <-]. exists [].
    split; [apply write_step_refl|]. repeat split; done.
  - destruct (chunks_of (batch_size (telemetry_storage s)) (x :: data))
      as [chunks|e] eqn:Hc.
    + rewrite (write_batch_unfold _ chunks) by done.
      intros H.
      destruct (write_chunks_step _ _ _ _ H) as (evs & post & Hs & Hw & Hit & Hok & Hne).
      exists evs. split; [done|]. split; [done|]. split; [done|].
      intros chunks' _ [= <-]. exists post. split; [done|]. split; [done|].
      intros Hch. apply Hne. by destruct chunks.
    + unfold _write_telemetry_batch, bind, get_storage, lift. rewrite Hc.
      intros [= <- <-]. exists [].
      split; [apply write_step_refl|]. repeat split; done.
Qed.

Lemma flush_batch_empty (s : state R) :
  pending_batch (telemetry_storage s) = [] ->
  flush_batch s = (Ok true, after_event s CallFlush).
Proof.
  intros H. unfold flush_batch, bind, emit, get_storage. simpl. by rewrite H.
Qed.

Lemma flush_batch_nonempty (s : state R) :
  pending_batch (telemetry_storage s) <> [] ->
  flush_batch s
  = match _write_telemetry_batch (pending_batch (telemetry_storage s))
                                 (after_event s CallFlush) with
    | (Ok true, s1) => (Ok true, with_pending s1 [])
    | (Ok false, s1) => (Ok false, s1)
    | (Raise _, s1) => (Ok false, s1)
    end.
Proof.
  intros H. unfold flush_batch, bind, emit, get_storage. simpl.
  destruct (pending_batch (telemetry_storage s)) as [|x l] eqn:E; [done|].
  unfold try_except, bind. fold (after_event s CallFlush).
  by destruct (_write_telemetry_batch (x :: l) (after_event s CallFlush))
    as [[[]|e] s1].
Qed.

(** What a call of [flush_batch] does: it never raises, touches neither
    the heap nor the clock nor the configuration, enters no nested flush,
    and empties the pending batch exactly when it returns [True]. *)
Lemma flush_batch_spec (s : state R) r s' :
  flush_batch s = (r, s') ->
  exists b evs,
    r = Ok b
    /\ heap s' = heap s /\ clock s' = clock s
    /\ batch_size (telemetry_storage s') = batch_size (telemetry_storage s)
    /\ max_retries (telemetry_storage s') = max_retries (telemetry_storage s)
    /\ pending_batch (telemetry_storage s')
       = (if b then [] else pending_batch (telemetry_storage s))
    /\ trace s' = trace s ++ CallFlush :: evs
    /\ forallb is_write_event evs = true
    /\ forall chunks,
        pending_batch (telemetry_storage s) <> [] ->
        chunks_of (batch_size (telemetry_storage s))
                  (pending_batch (telemetry_storage s)) = Ok chunks ->
        exists post,
          enumerate_from 0 chunks = chunk_calls evs ++ post
          /\ (b = true -> post = [])
          /\ (chunks <> [] -> chunk_calls evs <> []).
Proof.
  destruct (pending_batch (telemetry_storage s)) as [|x l] eqn:E.
  - rewrite flush_batch_empty by done. intros [= <- <-].
    exists true, []. simpl. rewrite ?E. repeat split; done.
  - rewrite flush_batch_nonempty by (by rewrite E). rewrite ?E.
    destruct (_write_telemetry_batch (x :: l) (after_event s CallFlush))
      as [r1 s1] eqn:Hw.
    destruct (write_batch_step _ _ _ _ Hw) as (evs & [A1 A2 A3 A4] & Hev & _ & Hch).
    simpl in A1, A2, A3, A4. rewrite <- app_assoc in A4. simpl in A4.
    destruct r1 as [[]|e]; intros [= <- <-].
    + exists true, evs. simpl. rewrite A1, ?E.
      do 8 (split; [done|]).
      intros chunks Hne Hc. destruct (Hch chunks Hne Hc) as (post & ? & ? & ?).
      exists post. auto.
    + exists false, evs. rewrite A1, ?E.
      do 8 (split; [done|]).
      intros chunks Hne Hc. destruct (Hch chunks Hne Hc) as (post & ? & ? & ?).
      exists post. split; [done|]. split; [done|]. done.
    + exists false, evs. rewrite A1, ?E.
      do 8 (split; [done|]).
      intros chunks Hne Hc. destruct (Hch chunks Hne Hc) as (post & ? & ? & ?).
      exists post. split; [done|]. split; [done|]. done.
Qed.

Lemma get_batch_status_pending (s : state R) :
  exists st s2,
    get_batch_status s = (Ok st, s2)
    /\ pending_records st = length (pending_batch (telemetry_storage s))
    /\ telemetry_storage s2 = telemetry_storage s /\ heap s2 = heap s.
Proof.
  unfold get_batch_status. unfold_py.
  destruct (select_count_execute (remote s)) as [[x|e] r']; simpl;
    eexists _, _; (split; [reflexivity|]); simpl; auto.
Qed.

End StorageFacts.

(** ** The partition into chunks *)

Section ChunkFacts.
Context {A : Type}.
Implicit Types data : list A.
Import Storage.

Lemma chunks_of_pos bs data :
  0 < bs ->
  chunks_of bs data
  = Ok (slices (Z.to_nat bs)
               ((length data + Z.to_nat bs - 1) / Z.to_nat bs) data).
Proof.
  intros Hbs. unfold chunks_of, range_step.
  destruct (Z.eqb_spec bs 0); [lia|].
  destruct (bs <? 0) eqn:E; [lia|]. reflexivity.
Qed.

Lemma slices_succ st m data :
  slices st (S m) data = take st data :: slices st m (drop st data).
Proof.
  unfold slices. rewrite <- cons_seq, <- seq_shift. simpl. f_equal.
  rewrite !map_map. apply map_ext. intros k.
  rewrite drop_drop. do 2 f_equal; lia.
Qed.

Lemma slices_concat st : forall m data,
  (length data <= m * st)%nat -> concat (slices st m data) = data.
Proof.
  induction m as [|m IH]; intros data Hlen.
  - destruct data; [done|simpl in Hlen; lia].
  - rewrite slices_succ. simpl. rewrite IH; [apply take_drop|].
    rewrite length_drop. lia.
Qed.

Lemma slices_lengths st : forall m data,
  map length (slices st m data)
  = map (fun k => Nat.min st (length data - k * st)) (seq 0 m).
Proof.
  intros m data. unfold slices. rewrite !map_map. apply map_ext. intros k.
  by rewrite length_take, length_drop.
Qed.

Lemma div_up_bounds n st :
  (0 < st)%nat ->
  let m := ((n + st - 1) / st)%nat in
  (n <= m * st)%nat /\ (forall k, k < m -> k * st < n)%nat.
Proof.
  intros Hst m.
  pose proof (Nat.div_mod_eq (n + st - 1) st) as Hd.
  pose proof (Nat.mod_upper_bound (n + st - 1) st ltac:(lia)) as Hm.
  fold m in Hd. split; [nia|]. intros k Hk.
  assert (st * (k + 1) <= st * m)%nat by nia. nia.
Qed.

End ChunkFacts.

Section FlushClaims.
Context {R : Type} {SB : Supabase R}.
Import Storage.

(** C6. [flush_batch] on an empty pending batch returns [True] and does
    nothing else: storage object, heap, remote store and clock are as
    before and no call reaches the remote store (the trace only gains
    the mark of the entry into the flush). And whenever [flush_batch]
    returns [True], the pending batch is empty afterwards, so the status
    reports zero pending records. *)
Theorem flush_empty_noop_success_clears (s : state R) :
  (pending_batch (telemetry_storage s) = [] ->
     exists s', flush_batch s = (Ok true, s')
                /\ telemetry_storage s' = telemetry_storage s
                /\ heap s' = heap s /\ remote s' = remote s
                /\ clock s' = clock s
                /\ trace s' = trace s ++ [CallFlush]
                /\ remote_calls (trace s') = remote_calls (trace s))
  /\ (forall s', flush_batch s = (Ok true, s') ->
        pending_batch (telemetry_storage s') = []
        /\ exists st s2, get_batch_status s' = (Ok st, s2)
                         /\ pending_records st = 0%nat).
Proof.
  split.
  - intros He. exists (after_event s CallFlush).
    split; [by apply flush_batch_empty|]. simpl.
    do 5 (split; [done|]).
    rewrite remote_calls_app. simpl. apply app_nil_r.
  - intros s' H.
    destruct (flush_batch_spec _ _ _ H)
      as (b & evs & [= <-] & _ & _ & _ & _ & Hp & _).
    split; [done|].
    destruct (get_batch_status_pending s') as (st & s2 & Hst & Hn & _).
    exists st, s2. split; [done|]. by rewrite Hn, Hp.
Qed.

(** C2. [flush_batch] never raises, and whenever it returns [False] the
    storage object is as before the call, so the pending batch is the
    same list in the same order, the records it refers to are unchanged,
    and the status reports the same number of pending records. *)
Theorem flush_failure_keeps_batch (s : state R) :
  (forall r s', flush_batch s = (r, s') -> exists b, r = Ok b)
  /\ (forall s', flush_batch s = (Ok false, s') ->
        pending_batch (telemetry_storage s') = pending_batch (telemetry_storage s)
        /\ telemetry_storage s' = telemetry_storage s
        /\ heap s' = heap s
        /\ exists st st' s1 s2,
            get_batch_status s = (Ok st, s1)
            /\ get_batch_status s' = (Ok st', s2)
            /\ pending_records st' = pending_records st).
Proof.
  split.
  - intros r s' H. destruct (flush_batch_spec _ _ _ H) as (b & _ & -> & _). eauto.
  - intros s' H.
    destruct (flush_batch_spec _ _ _ H)
      as (b & evs & [= <-] & Hh & _ & Hbs & Hmr & Hp & _).
    split; [done|]. split; [|split; [done|]].
    + destruct (telemetry_storage s'), (telemetry_storage s). simpl in *. congruence.
    + destruct (get_batch_status_pending s) as (st & s1 & Hst & Hn & _).
      destruct (get_batch_status_pending s') as (st' & s2 & Hst' & Hn' & _).
      exists st, st', s1, s2. do 2 (split; [done|]). by rewrite Hn, Hn', Hp.
Qed.

(** C5. [_write_telemetry_batch] writes the chunks in order: when the
    chunks before some chunk are written with success and the write of
    that chunk returns [False], the batch write returns [False] in the
    very state the failing chunk write left. Every chunk up to the
    failing one was entered exactly once, in order, none after it; the
    events of the earlier chunks stay in the trace, and the only remote
    calls made are inserts: nothing is written again or undone. *)
Theorem write_batch_stops_at_first_failure
    (s s1 s2 : state R) (data : list loc) (chunks : list (list loc))
    (pre post : list (nat * list loc)) (i : nat) (c : list loc) :
  data <> [] ->
  chunks_of (batch_size (telemetry_storage s)) data = Ok chunks ->
  enumerate_from 0 chunks = pre ++ (i, c) :: post ->
  write_chunks pre s = (Ok true, s1) ->
  _write_chunk_with_retry c i s1 = (Ok false, s2) ->
  _write_telemetry_batch data s = (Ok false, s2)
  /\ exists evs1 evs2,
      trace s1 = trace s ++ evs1
      /\ trace s2 = trace s1 ++ evs2
      /\ chunk_calls evs1 = pre
      /\ chunk_calls evs2 = [(i, c)]
      /\ remote_calls (evs1 ++ evs2) = map RemoteInsert (inserts (evs1 ++ evs2)).
Proof.
  intros Hd Hc He Hpre Hfail. split.
  - rewrite (write_batch_unfold _ chunks) by done.
    rewrite He, (write_chunks_app_ok _ _ _ _ Hpre). simpl.
    unfold bind. by rewrite Hfail.
  - destruct (write_chunks_step _ _ _ _ Hpre)
      as (evs1 & post1 & [_ _ _ Ht1] & Hw1 & Hit & Hok & _).
    rewrite (Hok eq_refl), app_nil_r in Hit.
    destruct (write_chunk_step _ _ _ _ _ Hfail) as (evs2 & [_ _ _ Ht2] & Hev2).
    exists evs1, (CallWriteChunk i c :: evs2).
    do 3 (split; [done|]). split.
    + change (chunk_calls (CallWriteChunk i c :: evs2))
        with ((i, c) :: chunk_calls evs2).
      by destruct (attempt_events_quiet _ Hev2) as [-> _].
    + apply write_events_only_insert. rewrite forallb_app, Hw1. simpl.
      by apply attempt_events_write.
Qed.

End FlushClaims.

Section ChunkingClaim.
Context {R : Type} {SB : Supabase R}.
Import Storage.

Lemma chunks_of_partition (bs : Z) (data : list loc) :
  1 <= bs ->
  exists chunks,
    chunks_of bs data = Ok chunks
    /\ concat chunks = data
    /\ Forall (fun c => (1 <= length c)%nat /\ Z.of_nat (length c) <= bs) chunks
    /\ (Z.of_nat (length data) = 2 * bs + 1 ->
        map (fun c => Z.of_nat (length c)) chunks = [bs; bs; 1]).
Proof.
  intros Hbs. set (st := Z.to_nat bs). set (n := length data).
  assert (Hst : (0 < st)%nat) by lia.
  destruct (div_up_bounds n st Hst) as (Hup & Hlow).
  exists (slices st ((n + st - 1) / st) data).
  split; [by apply chunks_of_pos; lia|].
  split; [by apply slices_concat|].
  split.
  - unfold slices. rewrite Forall_map, Forall_map. apply Forall_forall.
    intros k [_ Hk]%elem_of_seq. rewrite length_take, length_drop. fold n.
    specialize (Hlow k ltac:(lia)). lia.
  - intros Hn. assert (Hn' : n = (2 * st + 1)%nat) by lia.
    replace ((n + st - 1) / st)%nat with 3%nat.
    + rewrite <- (map_map length Z.of_nat), slices_lengths. fold n. simpl.
      repeat f_equal; lia.
    + rewrite Hn'. replace (2 * st + 1 + st - 1)%nat with (3 * st)%nat by lia.
      symmetry. apply Nat.div_mul. lia.
Qed.

(** C4. For a batch size of at least one, [_write_telemetry_batch] cuts
    its input into chunks whose concatenation is the input (contiguous,
    in order), each of at least one and at most [batch_size] records; an
    input of [2 * batch_size + 1] records gives the sizes
    [batch_size; batch_size; 1]. A flush of a pending batch enters the
    chunk writes in that order, stopping at the first one that does not
    succeed; a flush of [2 * batch_size + 1] records that returns [True]
    has entered exactly three chunk writes, numbered 0, 1, 2, of those
    sizes. *)
Theorem write_batch_chunking (s : state R) :
  let bs := batch_size (telemetry_storage s) in
  let data := pending_batch (telemetry_storage s) in
  1 <= bs ->
  exists chunks,
    chunks_of bs data = Ok chunks
    /\ concat chunks = data
    /\ Forall (fun c => (1 <= length c)%nat /\ Z.of_nat (length c) <= bs) chunks
    /\ (Z.of_nat (length data) = 2 * bs + 1 ->
        map (fun c => Z.of_nat (length c)) chunks = [bs; bs; 1])
    /\ (forall r s', data <> [] -> flush_batch s = (r, s') ->
          exists evs post,
            trace s' = trace s ++ CallFlush :: evs
            /\ enumerate_from 0 chunks = chunk_calls evs ++ post
            /\ chunk_calls evs <> []
            /\ (r = Ok true -> chunk_calls evs = enumerate_from 0 chunks))
    /\ (forall s', Z.of_nat (length data) = 2 * bs + 1 ->
          flush_batch s = (Ok true, s') ->
          exists evs,
            trace s' = trace s ++ CallFlush :: evs
            /\ map snd (chunk_calls evs) = chunks
            /\ map fst (chunk_calls evs) = [0; 1; 2]%nat
            /\ map (fun ic => Z.of_nat (length (snd ic))) (chunk_calls evs)
               = [bs; bs; 1]).
Proof.
  intros bs data Hbs.
  destruct (chunks_of_partition bs data Hbs) as (chunks & Hc & Hcat & Hall & H3).
  exists chunks. do 4 (split; [done|]).
  assert (Hgen : forall r s', data <> [] -> flush_batch s = (r, s') ->
            exists evs post,
              trace s' = trace s ++ CallFlush :: evs
              /\ enumerate_from 0 chunks = chunk_calls evs ++ post
              /\ chunk_calls evs <> []
              /\ (r = Ok true -> chunk_calls evs = enumerate_from 0 chunks)).
  { intros r s' Hd H.
    destruct (flush_batch_spec _ _ _ H)
      as (b & evs & -> & _ & _ & _ & _ & _ & Ht & _ & Hch).
    destruct (Hch chunks Hd Hc) as (post & Hen & Hok & Hne).
    exists evs, post. do 2 (split; [done|]). split.
    - apply Hne. intros ->. simpl in Hcat. by subst data.
    - intros [= ->]. rewrite Hen, (Hok eq_refl). by rewrite app_nil_r. }
  split; [exact Hgen|].
  intros s' Hlen H.
  assert (Hd : data <> []).
  { intros E. rewrite E in Hlen. simpl in Hlen. lia. }
  destruct (Hgen _ _ Hd H) as (evs & post & Ht & _ & _ & Hok).
  specialize (H3 Hlen). specialize (Hok eq_refl).
  exists evs. split; [done|]. rewrite Hok.
  destruct chunks as [|c0 [|c1 [|c2 [|]]]]; try discriminate.
  simpl in *. by repeat split.
Qed.

End ChunkingClaim.

(** ** The flush claims on concrete runs *)

Section FlushRuns.
Import Storage Fixtures.
Local Existing Instance scripted.

Lemma flush_empty_noop_success_clears_witness :
  fst (flush_batch s_idle) = Ok true
  /\ pending_batch (telemetry_storage (snd (flush_batch s_up))) = [].
Proof.
  split.
  - destruct (proj1 (flush_empty_noop_success_clears s_idle) eq_refl)
      as (s' & -> & _). reflexivity.
  - apply (proj2 (flush_empty_noop_success_clears s_up)).
    vm_compute. reflexivity.
Defined.

Lemma flush_failure_keeps_batch_witness :
  pending_batch (telemetry_storage (snd (flush_batch s_down))) = [1%positive].
Proof.
  apply (proj2 (flush_failure_keeps_batch s_down) (snd (flush_batch s_down))).
  vm_compute. reflexivity.
Defined.

Lemma write_batch_stops_at_first_failure_witness :
  fst (_write_telemetry_batch [1; 2; 3]%positive s_second_fails) = Ok false.
Proof.
  pose (s1 := snd (write_chunks [(0%nat, [1%positive])] s_second_fails)).
  pose (s2 := snd (_write_chunk_with_retry [2%positive] 1 s1)).
  destruct (write_batch_stops_at_first_failure
              s_second_fails s1 s2 [1; 2; 3]%positive
              [[1]; [2]; [3]]%positive
              [(0%nat, [1%positive])] [(2%nat, [3%positive])]
              1%nat [2%positive]) as [-> _]; try (vm_compute; reflexivity).
  discriminate.
Defined.

Lemma write_batch_chunking_witness :
  exists evs,
    trace (snd (flush_batch s_three)) = trace s_three ++ CallFlush :: evs
    /\ map (fun ic => Z.of_nat (length (snd ic))) (chunk_calls evs) = [1; 1; 1].
Proof.
  destruct (write_batch_chunking s_three ltac:(vm_compute; discriminate))
    as (chunks & _ & _ & _ & _ & _ & H).
  destruct (H (snd (flush_batch s_three)))
    as (evs & Ht & _ & _ & Hs); [reflexivity|vm_compute; reflexivity|].
  exists evs. split; [exact Ht|exact Hs].
Defined.

End FlushRuns.

(** ** Retries of a chunk write *)

Lemma inserts_attempt_events rows mr outs : forall a,
  inserts (attempt_events rows mr a outs) = repeat rows (length outs).
Proof.
  induction outs as [|o outs IH]; intros a; simpl; [done|].
  unfold inserts in *. simpl. f_equal.
  rewrite omap_app, IH. by destruct (raised o && _).
Qed.

Lemma sleeps_attempt_events_raised rows mr outs : forall a,
  mr = Z.of_nat (a + length outs) ->
  forallb raised outs = true ->
  sleeps (attempt_events rows mr a outs) = map backoff (seq a (length outs - 1)).
Proof.
  induction outs as [|o outs IH]; intros a Hmr; simpl; [done|].
  intros [Ho Houts]%andb_prop. rewrite Ho. simpl.
  unfold sleeps in *. simpl. rewrite omap_app.
  rewrite IH by (done || (simpl in Hmr; lia)).
  destruct outs as [|o' outs]; simpl in *.
  - destruct (Z.ltb_spec (Z.of_nat a) (mr - 1)); [lia|done].
  - destruct (Z.ltb_spec (Z.of_nat a) (mr - 1)); [|lia].
    simpl. by rewrite Nat.sub_0_r.
Qed.

Lemma sleeps_attempt_events_quiet rows mr outs : forall a,
  forallb (fun o => negb (raised o)) outs = true ->
  sleeps (attempt_events rows mr a outs) = [].
Proof.
  induction outs as [|o outs IH]; intros a; simpl; [done|].
  intros [Ho Houts]%andb_prop. apply negb_true_iff in Ho. rewrite Ho. simpl.
  by apply IH.
Qed.

Section RetryFacts.
Context {R : Type} {SB : Supabase R}.
Import Storage.

Lemma insert_outcomes_length rows n : forall r : R,
  length (insert_outcomes r rows n) = n.
Proof.
  induction n as [|n IH]; intros r; simpl; [done|].
  destruct (insert_execute r rows). simpl. by rewrite IH.
Qed.

Lemma attempt_insert_unfold chunk attempt (s : state R) :
  attempt_insert chunk attempt s
  = match fst (insert_execute (remote s) (rows_of s chunk)) with
    | Ok [] => (Ok false, after_insert s chunk)
    | Ok (_ :: _) => (Ok true, after_insert s chunk)
    | Raise _ =>
        match wait_time attempt with
        | Ok t =>
            if Z.of_nat attempt <? max_retries (telemetry_storage s) - 1
            then match sleep_outcome t with
                 | Ok _ => (Ok false, after_event (after_insert s chunk) (Sleep t))
                 | Raise e => (Raise e, after_insert s chunk)
                 end
            else (Ok false, after_insert s chunk)
        | Raise e => (Raise e, after_insert s chunk)
        end
    end.
Proof.
  unfold attempt_insert, after_insert, after_event. unfold_py.
  fold (rows_of s chunk).
  destruct (insert_execute (remote s) (rows_of s chunk)) as [[[|x data]|e] r'];
    simpl; try done.
  destruct (wait_time attempt); simpl; [|done].
  destruct (_ <? _); [|done]. by destruct (sleep_outcome _).
Qed.

(** The delays of the attempts 0 to 34 fit [time.sleep]; the one of
    attempt 35, [2^34] seconds, does not. *)
Lemma sleep_outcome_backoff a : (a <= 34)%nat -> sleep_outcome (backoff a) = Ok tt.
Proof.
  intros Ha. do 35 (destruct a as [|a]; [by vm_compute|]). lia.
Qed.

Lemma sleep_outcome_backoff_35 :
  sleep_outcome (backoff 35)
  = Raise (OverflowError "timestamp too large to convert to C _PyTime_t").
Proof. by vm_compute. Qed.

Lemma retry_loop_failed chunk mr (Hmr36 : mr <= 36) : forall n a (s : state R),
  max_retries (telemetry_storage s) = mr ->
  (a + n <= 1024)%nat ->
  forallb failed (insert_outcomes (remote s) (rows_of s chunk) n) = true ->
  exists s',
    retry_loop chunk (seq a n) s = (Ok false, s')
    /\ write_step s s'
         (attempt_events (rows_of s chunk) mr a
            (insert_outcomes (remote s) (rows_of s chunk) n)).
Proof.
  induction n as [|n IH]; intros a s Hmr Ha; simpl.
  - intros _. exists s. split; [done|apply write_step_refl].
  - unfold bind. rewrite attempt_insert_unfold.
    destruct (insert_execute (remote s) (rows_of s chunk)) as [o r'] eqn:E.
    simpl. intros [Ho Houts]%andb_prop.
    assert (Hw : wait_time a = Ok (backoff a)).
    { unfold wait_time. destruct (Nat.ltb_spec a 1024); [done|lia]. }
    destruct o as [[|x data]|e]; try discriminate; simpl.
    + destruct (IH (S a) (after_insert s chunk)) as (s' & Hrun & Hstep);
        [done|lia|by unfold after_insert; rewrite E|].
      exists s'. split; [done|].
      unfold after_insert in Hstep. rewrite E in Hstep. simpl in Hstep.
      destruct Hstep as [A1 A2 A3 A4]. simpl in *.
      split; try done. by rewrite A4, <- app_assoc.
    + rewrite Hw, Hmr. destruct (Z.ltb_spec (Z.of_nat a) (mr - 1)).
      * rewrite sleep_outcome_backoff by lia.
        destruct (IH (S a) (after_event (after_insert s chunk) (Sleep (backoff a))))
          as (s' & Hrun & Hstep);
          [done|lia|by unfold after_insert; simpl; rewrite E|].
        exists s'. split; [done|].
        unfold after_insert in Hstep. simpl in Hstep. rewrite E in Hstep.
        destruct Hstep as [A1 A2 A3 A4]. simpl in *.
        split; try done.
        destruct (Z.ltb_spec (Z.of_nat a) (mr - 1)); [|lia].
        by rewrite A4, <- !app_assoc.
      * destruct (IH (S a) (after_insert s chunk)) as (s' & Hrun & Hstep);
          [done|lia|by unfold after_insert; rewrite E|].
        exists s'. split; [done|].
        unfold after_insert in Hstep. rewrite E in Hstep. simpl in Hstep.
        destruct Hstep as [A1 A2 A3 A4]. simpl in *.
        split; try done.
        destruct (Z.ltb_spec (Z.of_nat a) (mr - 1)); [lia|].
        by rewrite A4, <- app_assoc.
Qed.

End RetryFacts.

Section RetryClaim.
Context {R : Type} {SB : Supabase R}.
Import Storage.

(** C1 (as amended). For [max_retries <= 36] (the range in which every
    delay still fits [time.sleep]), when each of the [max_retries]
    successive inserts of the chunk fails, by raising or by an empty
    confirmation, [_write_chunk_with_retry] returns [False] after exactly
    [max_retries] inserts (none for [max_retries <= 0]). After an insert
    that raised, unless it was the last attempt, it sleeps
    [0.5 * 2^attempt] seconds before the next one; after an insert that
    returned an empty confirmation it goes on without sleeping. So when
    every insert raises the sleeps are 0.5, 1, 2, ... for the attempts
    [0 .. max_retries - 2], and when every insert returns an empty
    confirmation there is no sleep at all. *)
Theorem retry_until_exhausted (s : state R) (chunk : list loc) (chunk_idx : nat) :
  let mr := max_retries (telemetry_storage s) in
  let rows := rows_of s chunk in
  let outs := insert_outcomes (remote s) rows (Z.to_nat mr) in
  mr <= 36 ->
  forallb failed outs = true ->
  exists s',
    _write_chunk_with_retry chunk chunk_idx s = (Ok false, s')
    /\ trace s'
       = trace s ++ CallWriteChunk chunk_idx chunk :: attempt_events rows mr 0 outs
    /\ inserts (trace s') = inserts (trace s) ++ repeat rows (Z.to_nat mr)
    /\ (forallb raised outs = true ->
        sleeps (trace s')
        = sleeps (trace s) ++ map backoff (seq 0 (Z.to_nat mr - 1)))
    /\ (forallb (fun o => negb (raised o)) outs = true ->
        sleeps (trace s') = sleeps (trace s))
    /\ (backoff 0 == 1 # 2 /\ backoff 1 == 1 /\ backoff 2 == 2)%Q.
Proof.
  intros mr rows outs Hmr Hfail.
  destruct (retry_loop_failed chunk mr Hmr (Z.to_nat mr) 0
              (after_event s (CallWriteChunk chunk_idx chunk)))
    as (s' & Hrun & [_ _ _ Ht]); [done|lia|done|].
  simpl in Ht. fold rows outs in Ht. rewrite <- app_assoc in Ht. simpl in Ht.
  exists s'. split; [|split; [done|]].
  { unfold _write_chunk_with_retry. unfold_py. exact Hrun. }
  rewrite Ht, inserts_app, sleeps_app.
  change (inserts (CallWriteChunk chunk_idx chunk :: ?l)) with (inserts l).
  change (sleeps (CallWriteChunk chunk_idx chunk :: ?l)) with (sleeps l).
  rewrite inserts_attempt_events.
  unfold outs at 1. rewrite insert_outcomes_length.
  split; [done|]. split; [|split; [|by repeat split]].
  - intros Hr. f_equal.
    destruct (Z.le_gt_cases mr 0) as [Hle|Hgt].
    + unfold outs. replace (Z.to_nat mr) with 0%nat by lia. done.
    + rewrite sleeps_attempt_events_raised; try done.
      * unfold outs. by rewrite insert_outcomes_length.
      * unfold outs. rewrite insert_outcomes_length. lia.
  - intros Hq. by rewrite sleeps_attempt_events_quiet, app_nil_r.
Qed.

End RetryClaim.

Section RetryRuns.
Import Storage Fixtures.
Local Existing Instance scripted.

(** C1, the claim as stated fails: with three attempts that all fail by
    an empty confirmation, the three inserts follow each other with no
    sleep in between, where the claim has sleeps of 0.5 and 1 second. *)
Lemma retry_empty_confirmation_no_sleep :
  let '(r, s') := _write_chunk_with_retry [1%positive] 0 s_unconfirmed in
  r = Ok false
  /\ length (inserts (trace s')) = 3%nat
  /\ sleeps (trace s') = []
  /\ sleeps (trace s') <> [backoff 0; backoff 1].
Proof. vm_compute. repeat split; discriminate. Qed.

Lemma retry_until_exhausted_witness :
  sleeps (trace (snd (_write_chunk_with_retry [1%positive] 0 s_down)))
  = [backoff 0; backoff 1]
  /\ length (inserts (trace (snd (_write_chunk_with_retry [1%positive] 0 s_down))))
     = 3%nat.
Proof.
  destruct (retry_until_exhausted s_down [1%positive] 0)
    as (s' & -> & _ & Hi & Hs & _);
    [vm_compute; discriminate|vm_compute; reflexivity|].
  simpl. split.
  - apply Hs. vm_compute. reflexivity.
  - rewrite Hi. reflexivity.
Defined.

End RetryRuns.

(** ** Buffering a record *)

Lemma stamped_lookup now (d : record) :
  (d !! "created_at" = None -> stamped now d !! "created_at" = Some (VStr now))
  /\ (forall v, d !! "created_at" = Some v -> stamped now d = d)
  /\ (forall k, k <> "created_at" -> stamped now d !! k = d !! k)
  /\ is_Some (stamped now d !! "created_at").
Proof.
  unfold stamped. destruct (d !! "created_at") as [v|] eqn:E.
  - split; [done|]. split; [done|]. split; [done|]. rewrite E. eauto.
  - split; [intros _; apply lookup_insert_eq|]. split; [done|].
    split; [intros k Hk; by rewrite lookup_insert_ne|].
    rewrite lookup_insert_eq. eauto.
Qed.

Section AddFacts.
Context {R : Type} {SB : Supabase R}.
Import Storage.

Lemma buffered_frame l (s : state R) :
  pending_batch (telemetry_storage (buffered l s))
  = pending_batch (telemetry_storage s) ++ [l]
  /\ batch_size (telemetry_storage (buffered l s)) = batch_size (telemetry_storage s)
  /\ max_retries (telemetry_storage (buffered l s)) = max_retries (telemetry_storage s)
  /\ remote (buffered l s) = remote s
  /\ trace (buffered l s) = trace s.
Proof. unfold buffered. by destruct (_ !! "created_at"). Qed.

Lemma buffered_heap l (s : state R) :
  (forall d, heap s !! l = Some d ->
             heap (buffered l s) !! l = Some (stamped (utcnow_isoformat (clock s)) d))
  /\ (forall l', l' <> l -> heap (buffered l s) !! l' = heap s !! l').
Proof.
  unfold buffered. split.
  - intros d Hd. rewrite Hd. simpl.
    destruct (d !! "created_at") eqn:E; simpl.
    + unfold stamped. by rewrite E.
    + apply lookup_insert_eq.
  - intros l' Hl. destruct (_ !! "created_at"); simpl; [done|].
    by rewrite lookup_insert_ne.
Qed.

Lemma add_unfold l (s : state R) :
  add_telemetry_data l s
  = if Z.of_nat (length (pending_batch (telemetry_storage s) ++ [l]))
       >=? batch_size (telemetry_storage s)
    then flush_batch (buffered l s)
    else (Ok true, buffered l s).
Proof.
  unfold add_telemetry_data, buffered, stamped. unfold_py.
  destruct (default ∅ (heap s !! l) !! "created_at") eqn:E; simpl;
    (destruct (_ >=? _); [|done]);
    match goal with
    | |- context [flush_batch ?s0] =>
        destruct (flush_batch s0) as [r s'] eqn:Hf;
        by destruct (flush_batch_spec _ _ _ Hf) as (b & _ & -> & _)
    end.
Qed.

Lemma add_spec l (s : state R) :
  exists b s',
    add_telemetry_data l s = (Ok b, s')
    /\ heap s' = heap (buffered l s)
    /\ batch_size (telemetry_storage s') = batch_size (telemetry_storage s).
Proof.
  rewrite add_unfold. destruct (buffered_frame l s) as (_ & Hbs & _).
  destruct (_ >=? _); [|eauto 10].
  destruct (flush_batch (buffered l s)) as [r s'] eqn:Hf.
  destruct (flush_batch_spec _ _ _ Hf) as (b & _ & -> & Hh & _ & Hb & _).
  exists b, s'. rewrite Hb. eauto.
Qed.

Lemma add_all_total ls : forall s : state R, exists results s', add_all ls s = (Ok results, s').
Proof.
  induction ls as [|l ls IH]; intros s; simpl; [unfold ret; eauto|].
  unfold bind. destruct (add_spec l s) as (b & s1 & -> & _).
  destruct (IH s1) as (results & s' & ->). unfold ret. eauto.
Qed.

(** Below the threshold nothing is flushed. *)
Lemma add_all_below ls : forall s : state R,
  Z.of_nat (length (pending_batch (telemetry_storage s)) + length ls)
  < batch_size (telemetry_storage s) ->
  exists s',
    add_all ls s = (Ok (repeat true (length ls)), s')
    /\ trace s' = trace s
    /\ batch_size (telemetry_storage s') = batch_size (telemetry_storage s)
    /\ length (pending_batch (telemetry_storage s'))
       = (length (pending_batch (telemetry_storage s)) + length ls)%nat.
Proof.
  induction ls as [|l ls IH]; intros s Hlt; simpl in *.
  - exists s. unfold ret. repeat split; try done; lia.
  - unfold bind. rewrite add_unfold, length_app. simpl.
    destruct (Z.geb_spec (Z.of_nat (length (pending_batch (telemetry_storage s)) + 1))
                         (batch_size (telemetry_storage s))); [lia|].
    destruct (buffered_frame l s) as (Hp & Hbs & _ & _ & Ht).
    destruct (IH (buffered l s)) as (s' & -> & Ht' & Hbs' & Hlen).
    { rewrite Hp, Hbs, length_app. simpl. lia. }
    exists s'. unfold ret. rewrite Ht', Hbs', Hlen, Hp, length_app. simpl.
    repeat split; try done; lia.
Qed.

(** The add that reaches the threshold enters exactly one flush. *)
Lemma add_all_reaching ls : forall s : state R,
  ls <> [] ->
  Z.of_nat (length (pending_batch (telemetry_storage s)) + length ls)
  = batch_size (telemetry_storage s) ->
  exists results s',
    add_all ls s = (Ok results, s')
    /\ flushes (trace s') = S (flushes (trace s)).
Proof.
  induction ls as [|l ls IH]; intros s Hne Hlen; [done|]. simpl in *.
  destruct (buffered_frame l s) as (Hp & Hbs & _ & _ & Ht).
  unfold bind. rewrite add_unfold, length_app. simpl.
  destruct ls as [|l2 ls].
  - destruct (Z.geb_spec (Z.of_nat (length (pending_batch (telemetry_storage s)) + 1))
                         (batch_size (telemetry_storage s))); [|simpl in *; lia].
    destruct (flush_batch (buffered l s)) as [r s'] eqn:Hf.
    destruct (flush_batch_spec _ _ _ Hf)
      as (b & evs & -> & _ & _ & _ & _ & _ & Ht' & Hw & _).
    simpl. unfold ret. exists [b], s'. split; [done|].
    rewrite Ht', Ht, flushes_app.
    change (flushes (CallFlush :: evs)) with (S (flushes evs)).
    rewrite (write_events_no_flush _ Hw). lia.
  - destruct (Z.geb_spec (Z.of_nat (length (pending_batch (telemetry_storage s)) + 1))
                         (batch_size (telemetry_storage s))); [simpl in *; lia|].
    destruct (IH (buffered l s)) as (results & s' & Hrun & Hfl); [done| |].
    { rewrite Hp, Hbs, length_app. simpl in *. lia. }
    rewrite Hrun. unfold ret. exists (true :: results), s'.
    split; [done|]. by rewrite Hfl, Ht.
Qed.

End AddFacts.

Section AddClaims.
Context {B : PyBuiltins} {R : Type} {SB : Supabase R}.
Import Storage.

(** C3. [add_telemetry_data] stamps [created_at] on the record when it is
    missing and appends the record to the pending batch; when the batch
    has then reached [batch_size] it calls [flush_batch] at once and
    returns its result, otherwise it returns [True]. For a batch size of
    at least one and an empty pending batch, a run of [batch_size - 1]
    adds enters no flush and a run of [batch_size] adds enters exactly
    one. *)
Theorem add_buffers_and_flushes_at_threshold (s : state R) :
  (forall l,
      add_telemetry_data l s
      = if Z.of_nat (length (pending_batch (telemetry_storage s) ++ [l]))
           >=? batch_size (telemetry_storage s)
        then flush_batch (buffered l s)
        else (Ok true, buffered l s))
  /\ (forall l,
        pending_batch (telemetry_storage (buffered l s))
        = pending_batch (telemetry_storage s) ++ [l]
        /\ trace (buffered l s) = trace s
        /\ forall d, heap s !! l = Some d ->
                     heap (buffered l s) !! l
                     = Some (stamped (utcnow_isoformat (clock s)) d))
  /\ (1 <= batch_size (telemetry_storage s) ->
      pending_batch (telemetry_storage s) = [] ->
      forall ls,
      exists results s',
        add_all ls s = (Ok results, s')
        /\ (Z.of_nat (length ls) = batch_size (telemetry_storage s) - 1 ->
            flushes (trace s') = flushes (trace s))
        /\ (Z.of_nat (length ls) = batch_size (telemetry_storage s) ->
            flushes (trace s') = S (flushes (trace s)))).
Proof.
  split; [intros l; apply add_unfold|]. split.
  - intros l. destruct (buffered_frame l s) as (Hp & _ & _ & _ & Ht).
    split; [done|]. split; [done|]. apply buffered_heap.
  - intros Hbs Hp ls.
    destruct (add_all_total ls s) as (results & s' & Hrun).
    exists results, s'. split; [done|]. split.
    + intros Hlen. destruct (add_all_below ls s) as (s2 & Hrun2 & Ht & _).
      { rewrite Hp. simpl. lia. }
      rewrite Hrun in Hrun2. simplify_eq. by rewrite Ht.
    + intros Hlen. destruct (add_all_reaching ls s) as (res2 & s2 & Hrun2 & Hfl).
      { intros ->. simpl in Hlen. lia. }
      { rewrite Hp. simpl. lia. }
      rewrite Hrun in Hrun2. by simplify_eq.
Qed.

Lemma parse_telemetry_store c raw' store (s : state R) :
  Api.flag_arg store = true ->
  let raw_data := String c raw' in
  let l := fresh (dom (heap s)) in
  let d := stamped (utcnow_isoformat (S (clock s)))
                   (Parser.parse_telemetry_line (VStr raw_data)) in
  exists b st s',
    Api.parse_telemetry raw_data store s
    = (Ok (200, Api.ParseBody true d (utcnow_isoformat (clock s))
                              (Some b) (Some st)), s')
    /\ heap s !! l = None
    /\ heap s' !! l = Some d.
Proof.
  intros Hf raw_data l d.
  unfold Api.parse_telemetry, Api.get_current_timestamp. rewrite Hf.
  unfold try_except, bind, alloc, utcnow. simpl. fold l raw_data.
  match goal with
  | |- context [add_telemetry_data l ?s1] =>
      destruct (add_spec l s1) as (b & s2 & Hadd & Hheap & _);
      rewrite Hadd;
      pose proof (proj1 (buffered_heap l s1) _ (lookup_insert_eq _ _ _)) as Hl
  end.
  simpl in Hl. fold d in Hl. rewrite <- Hheap in Hl.
  destruct (get_batch_status_pending s2) as (st & s3 & Hst & _ & _ & Hh3).
  rewrite Hst. unfold ret, deref. simpl. rewrite Hh3, Hl. simpl.
  exists b, st, s3. split; [done|]. split; [|by rewrite Hh3].
  apply not_elem_of_dom, is_fresh.
Qed.

(** C10. [add_telemetry_data] works on the caller's object: the record
    at the reference passed becomes the same record with [created_at] set
    to the clock reading when that key was absent, and stays as it is
    when the key was present; no other key of it and no other object
    changes. The response of [parse_telemetry] with storing requested is
    built from that same object after the add, so its [parsed_data]
    carries [created_at] (the stamp, unless the parsed text had such a
    field itself). *)
Theorem add_stamps_in_place (s : state R) :
  (forall l d,
      heap s !! l = Some d ->
      let d' := stamped (utcnow_isoformat (clock s)) d in
      (exists b s',
          add_telemetry_data l s = (Ok b, s')
          /\ heap s' !! l = Some d'
          /\ forall l', l' <> l -> heap s' !! l' = heap s !! l')
      /\ (d !! "created_at" = None ->
          d' !! "created_at" = Some (VStr (utcnow_isoformat (clock s))))
      /\ (forall v, d !! "created_at" = Some v -> d' = d)
      /\ (forall k, k <> "created_at" -> d' !! k = d !! k))
  /\ (forall c raw' store,
        Api.flag_arg store = true ->
        let parsed := Parser.parse_telemetry_line (VStr (String c raw')) in
        let d := stamped (utcnow_isoformat (S (clock s))) parsed in
        exists b st s',
          Api.parse_telemetry (String c raw') store s
          = (Ok (200, Api.ParseBody true d (utcnow_isoformat (clock s))
                                    (Some b) (Some st)), s')
          /\ heap s' !! fresh (dom (heap s)) = Some d
          /\ is_Some (d !! "created_at")
          /\ (parsed !! "created_at" = None ->
              d !! "created_at" = Some (VStr (utcnow_isoformat (S (clock s)))))).
Proof.
  split.
  - intros l d Hd d'.
    destruct (stamped_lookup (utcnow_isoformat (clock s)) d) as (H1 & H2 & H3 & _).
    split; [|done].
    destruct (add_spec l s) as (b & s' & Hadd & Hh & _).
    exists b, s'. split; [done|]. rewrite Hh.
    destruct (buffered_heap l s) as [Hl Hother]. split; [by apply Hl|done].
  - intros c raw' store Hf parsed d.
    destruct (parse_telemetry_store c raw' store s Hf) as (b & st & s' & Hrun & _ & Hl).
    destruct (stamped_lookup (utcnow_isoformat (S (clock s))) parsed)
      as (H1 & _ & _ & H4).
    exists b, st, s'. by repeat split.
Qed.

End AddClaims.

Section AddRuns.
Import Storage Fixtures.
Local Existing Instance scripted.
Local Existing Instance ascii_builtins.

Lemma add_buffers_and_flushes_at_threshold_witness :
  flushes (trace (snd (add_all [1%positive] s_two))) = 0%nat
  /\ flushes (trace (snd (add_all [1; 2]%positive s_two))) = 1%nat.
Proof.
  destruct (add_buffers_and_flushes_at_threshold s_two) as (_ & _ & H).
  assert (H1 : 1 <= batch_size (telemetry_storage s_two)) by (vm_compute; discriminate).
  split.
  - destruct (H H1 eq_refl [1%positive]) as (results & s' & -> & Hlow & _).
    exact (Hlow eq_refl).
  - destruct (H H1 eq_refl [1; 2]%positive) as (results & s' & -> & _ & Hhigh).
    exact (Hhigh eq_refl).
Defined.

Lemma add_stamps_in_place_witness :
  (exists b s',
      add_telemetry_data 1%positive s_two = (Ok b, s')
      /\ heap s' !! 1%positive = Some (stamped (stamp 0) rec1))
  /\ exists b st s',
      Api.parse_telemetry "alt:150" None s_two
      = (Ok (200, Api.ParseBody true
                    (stamped (stamp 1)
                             (Parser.parse_telemetry_line (VStr "alt:150")))
                    (stamp 0) (Some b) (Some st)), s').
Proof.
  destruct (add_stamps_in_place s_two) as [Hadd Hparse]. split.
  - destruct (Hadd 1%positive rec1 eq_refl) as ((b & s' & Hrun & Hl & _) & _).
    exists b, s'. split; [exact Hrun|exact Hl].
  - destruct (Hparse "a"%char "lt:150" None eq_refl) as (b & st & s' & Hrun & _).
    exists b, st, s'. exact Hrun.
Defined.

End AddRuns.

(** * The query route *)

Section QueryClaim.
Context {B : PyBuiltins} {R : Type} {SB : Supabase R}.
Import Api.

Lemma query_telemetry_unfold limit offset order_by desc (s : state R) :
  query_telemetry limit offset order_by desc s
  = match int_arg limit 100, int_arg offset 0 with
    | Ok n, Ok m =>
        let lo := m in
        let hi := m + n - 1 in
        let order_by := default "created_at" order_by in
        let ev := RemoteSelectRange order_by (flag_arg desc) lo hi in
        let (r, rem) := select_range_execute (remote s) order_by (flag_arg desc) lo hi in
        let s1 := mkState (telemetry_storage s) (heap s) rem (clock s)
                          (trace s ++ [ev]) in
        let s2 := mkState (telemetry_storage s) (heap s) rem (S (clock s))
                          (trace s ++ [ev]) in
        match r with
        | Ok data =>
            (Ok (200, QueryBody true data (length data) n m
                                (utcnow_isoformat (clock s))), s2)
        | Raise e =>
            (Ok (500, ErrorBody ("Failed to query telemetry: " +:+ str_of_exn e)
                                (Some (utcnow_isoformat (clock s)))), s2)
        end
    | Raise e, _ | Ok _, Raise e =>
        (Ok (500, ErrorBody ("Failed to query telemetry: " +:+ str_of_exn e)
                            (Some (utcnow_isoformat (clock s)))),
         mkState (telemetry_storage s) (heap s) (remote s) (S (clock s)) (trace s))
    end.
Proof.
  unfold query_telemetry, get_current_timestamp. unfold_py.
  destruct (int_arg limit 100) as [n|e]; simpl; [|done].
  destruct (int_arg offset 0) as [m|e]; simpl; [|done].
  by destruct (select_range_execute _ _ _ _ _) as [[data|e] rem].
Qed.

(** C9 (as amended). [query_telemetry] converts [limit] and [offset] with
    [int()] and does not look at their sign. When one of them is not an
    integer literal the operation fails at once, before any call to the
    remote store and without retry, and the answer is the server-error
    status 500. When both are integers, of whatever sign, exactly one
    query for the range [offset .. offset + limit - 1] goes to the remote
    store, answered with 200, or with 500 when the remote call raises.
    No answer is a client error. *)
Theorem query_parameters_unchecked (s : state R)
    (limit offset order_by desc : option string) :
  ((exists e, int_arg limit 100 = Raise e) \/ (exists e, int_arg offset 0 = Raise e) ->
     exists msg s',
       query_telemetry limit offset order_by desc s
       = (Ok (500, ErrorBody msg (Some (utcnow_isoformat (clock s)))), s')
       /\ remote s' = remote s /\ trace s' = trace s)
  /\ (forall n m,
        int_arg limit 100 = Ok n -> int_arg offset 0 = Ok m ->
        exists status body s',
          query_telemetry limit offset order_by desc s = (Ok (status, body), s')
          /\ trace s'
             = trace s ++ [RemoteSelectRange (default "created_at" order_by)
                                             (flag_arg desc) m (m + n - 1)]
          /\ (status = 200 \/ status = 500)
          /\ forall data rem,
              select_range_execute (remote s) (default "created_at" order_by)
                                   (flag_arg desc) m (m + n - 1) = (Ok data, rem) ->
              status = 200
              /\ body = QueryBody true data (length data) n m
                                  (utcnow_isoformat (clock s)))
  /\ (forall r s', query_telemetry limit offset order_by desc s = (r, s') ->
        exists status body, r = Ok (status, body) /\ (status = 200 \/ status = 500)).
Proof.
  rewrite query_telemetry_unfold. split; [|split].
  - intros [[e He]|[e He]].
    + rewrite He. simpl. eauto 10.
    + rewrite He. destruct (int_arg limit 100); simpl; eauto 10.
  - intros n m -> ->. simpl.
    destruct (select_range_execute _ _ _ _ _) as [[data|e] rem]; simpl.
    + do 3 eexists. split; [reflexivity|]. simpl. split; [done|].
      split; [by left|]. by intros ? ? [= <- <-].
    + do 3 eexists. split; [reflexivity|]. simpl. split; [done|].
      split; [by right|]. by intros ? ? [=].
  - intros r s'.
    destruct (int_arg limit 100) as [n|e]; [|intros [= <- <-]; eauto 10].
    destruct (int_arg offset 0) as [m|e]; [|intros [= <- <-]; eauto 10].
    simpl. destruct (select_range_execute _ _ _ _ _) as [[data|e] rem];
      intros [= <- <-]; eauto 10.
Qed.

End QueryClaim.

Section QueryRuns.
Import Api Fixtures.
Local Existing Instance scripted.
Local Existing Instance ascii_builtins.

(** C9, the claim as stated fails: a negative [limit] is not rejected but
    sent on to the remote store as the range [0 .. -6] and answered with
    200, and a [limit] that is no integer is answered with the server
    error 500, not with a client error. *)
Lemma query_negative_limit_reaches_remote :
  (let '(r, s') := query_telemetry (Some "-5") None None None s_idle in
   r = Ok (200, QueryBody true [] 0 (-5) 0 (stamp 0))
   /\ trace s' = [RemoteSelectRange "created_at" true 0 (-6)])
  /\ (let '(r, s') := query_telemetry (Some "abc") None None None s_idle in
      exists msg, r = Ok (500, ErrorBody msg (Some (stamp 0))) /\ trace s' = []).
Proof. vm_compute. split; [done|]. eexists. done. Qed.

Lemma query_parameters_unchecked_witness :
  (exists msg s',
      query_telemetry (Some "abc") None None None s_idle
      = (Ok (500, ErrorBody msg (Some (stamp 0))), s')
      /\ trace s' = [])
  /\ exists status body s',
      query_telemetry (Some "-5") None None None s_idle = (Ok (status, body), s')
      /\ trace s' = [RemoteSelectRange "created_at" true 0 (-6)].
Proof.
  split.
  - destruct (proj1 (query_parameters_unchecked (B := ascii_builtins)
                              s_idle (Some "abc") None None None))
      as (msg & s' & Hrun & _ & Ht).
    { left. eexists. vm_compute. reflexivity. }
    exists msg, s'. split; [exact Hrun|exact Ht].
  - destruct (proj1 (proj2 (query_parameters_unchecked
                              (B := ascii_builtins)
                              s_idle (Some "-5") None None None))
                    (-5) 0 eq_refl eq_refl)
      as (status & body & s' & Hrun & Ht & _).
    exists status, body, s'. split; [exact Hrun|exact Ht].
Defined.

End QueryRuns.

(** * Further properties of the parser *)

Section ParserMore.
Context {B : PyBuiltins}.
















Lemma contains_lstrip c s : PyStr.contains c s = false -> PyStr.contains c (PyStr.lstrip s) = false.
Proof.
  induction s as [|a s IH]; simpl; [done|].
  destruct (Ascii.eqb a c) eqn:E; [discriminate|]. intros H.
  destruct (PyStr.isspace a); [by apply IH|]. simpl. by rewrite E.
Qed.

Lemma contains_rstrip c s : PyStr.contains c s = false -> PyStr.contains c (PyStr.rstrip s) = false.
Proof.
  induction s as [|a s IH]; simpl; [done|].
  destruct (Ascii.eqb a c) eqn:E; [discriminate|]. intros H. specialize (IH H).
  destruct (PyStr.rstrip s); simpl in *.
  - destruct (PyStr.isspace a); simpl; [done|]. by rewrite E.
  - by rewrite E.
Qed.

Lemma contains_split c sep s :
  PyStr.contains c s = false ->
  Forall (fun piece => PyStr.contains c piece = false) (PyStr.split sep s).
Proof.
  induction s as [|a s IH]; simpl; [by repeat constructor|].
  destruct (Ascii.eqb a c) eqn:E; [discriminate|]. intros H. specialize (IH H).
  destruct (Ascii.eqb a sep); [by constructor|].
  destruct (PyStr.split sep s) as [|h t]; [by repeat constructor; simpl; rewrite E|].
  inversion IH; subst. constructor; [|done]. simpl. by rewrite E.
Qed.

Lemma parse_pairs_skip items : forall d : record,
  Forall (fun piece => PyStr.contains ":" piece = false) items ->
  Parser.parse_pairs d items = Ok d.
Proof.
  induction items as [|item items IH]; intros d Hall; simpl; [done|].
  inversion Hall; subst. unfold Parser.parse_pair. rewrite H1. simpl. by apply IH.
Qed.

(** X2. A text without any [":"] has no field: the record parsed from it
    holds the three metadata keys and nothing else, however many commas
    the text has. *)
Theorem parse_without_colon (raw : string) :
  PyStr.contains ":" raw = false ->
  Parser.parse_telemetry_line (VStr raw)
  = {[ "data_source" := VStr "flask_api";
       "parser_version" := VStr "1.0";
       "raw_data" := VStr raw ]}.
Proof.
  intros Hc. unfold Parser.parse_telemetry_line, Parser.parse_body.
  assert (Hend : Parser.add_metadata (VStr raw) ∅
                 = {[ "data_source" := VStr "flask_api";
                      "parser_version" := VStr "1.0";
                      "raw_data" := VStr raw ]}).
  { unfold Parser.add_metadata. by rewrite insert_empty. }
  destruct (PyStr.contains "," raw).
  - rewrite parse_pairs_skip; [done|].
    apply contains_split. unfold PyStr.strip. by apply contains_rstrip, contains_lstrip.
  - unfold Parser.parse_pair. by rewrite Hc.
Qed.

Lemma parse_pairs_snoc items item : forall d : record,
  Parser.parse_pairs d (items ++ [item])
  = rbind (Parser.parse_pairs d items) (fun d' => Parser.parse_pair d' item).
Proof.
  induction items as [|i items IH]; intros d; simpl.
  - by destruct (Parser.parse_pair d item).
  - destruct (Parser.parse_pair d i); simpl; [apply IH|done].
Qed.

(** X3. The pairs are taken from left to right and a later pair replaces
    an earlier one with the same normalised key: after a run of pairs,
    one more pair [key:value] sets the normalised key to the converted
    trimmed value and leaves every other key as the run left it, and one
    more piece without [":"] changes nothing. *)
Theorem later_pair_wins (d : record) (items : list string) (item : string) :
  exists d1 d2,
    Parser.parse_pairs d items = Ok d1
    /\ Parser.parse_pairs d (items ++ [item]) = Ok d2
    /\ (PyStr.contains ":" item = false -> d2 = d1)
    /\ (forall key value,
          PyStr.contains ":" item = true ->
          PyStr.split1 ":" item = [key; value] ->
          d2 !! PyStr.lower (PyStr.strip key)
          = Some (Parser._convert_value (PyStr.strip value))
          /\ forall k, k <> PyStr.lower (PyStr.strip key) -> d2 !! k = d1 !! k).
Proof.
  destruct (parse_pairs_returns items d) as [d1 H1].
  rewrite parse_pairs_snoc, H1. simpl.
  destruct (parse_pair_returns d1 item) as [d2 H2].
  exists d1, d2. do 2 (split; [done|]).
  unfold Parser.parse_pair in H2. split.
  - intros Hc. rewrite Hc in H2. by injection H2.
  - intros key value Hc Hs. rewrite Hc, Hs in H2. injection H2 as <-.
    split; [apply lookup_insert_eq|]. intros k Hk. by rewrite lookup_insert_ne.
Qed.

End ParserMore.


Lemma parse_without_colon_witness :
  @Parser.parse_telemetry_line ascii_builtins (VStr "bad_no_colon,,x")
  = {[ "data_source" := VStr "flask_api";
       "parser_version" := VStr "1.0";
       "raw_data" := VStr "bad_no_colon,,x" ]}.
Proof. apply (parse_without_colon (B := ascii_builtins)). reflexivity. Defined.

Lemma later_pair_wins_witness :
  @Parser.parse_telemetry_line ascii_builtins (VStr "alt:1, ALT :2") !! "alt"
  = Some (VInt 2)
  /\ exists d2, @Parser.parse_pairs ascii_builtins ∅ (["alt:1"] ++ [" ALT :2"]) = Ok d2
                /\ d2 !! "alt" = Some (VInt 2).
Proof.
  split; [by vm_compute|].
  destruct (later_pair_wins (B := ascii_builtins) ∅ ["alt:1"] " ALT :2")
    as (d1 & d2 & _ & H2 & _ & Hk).
  exists d2. split; [exact H2|].
  exact (proj1 (Hk " ALT " "2" eq_refl eq_refl)).
Defined.

(** * Further properties of the buffer *)

Section BufferMore.
Context {R : Type} {SB : Supabase R}.
Import Storage.

(** X4. [add_telemetry_data] never raises and never drops the record it
    is given without a successful flush. After the call one of three
    things holds: the record was appended below the threshold and the
    call returned [True] without a flush; or one flush was entered and
    failed, the call returned [False] and the record is the last of the
    pending batch; or one flush was entered and succeeded, the call
    returned [True] and the pending batch is empty. *)
Theorem add_never_drops (s : state R) (l : loc) :
  exists b s',
    add_telemetry_data l s = (Ok b, s')
    /\ ((b = true
         /\ pending_batch (telemetry_storage s')
            = pending_batch (telemetry_storage s) ++ [l]
         /\ Z.of_nat (length (pending_batch (telemetry_storage s')))
            < batch_size (telemetry_storage s)
         /\ trace s' = trace s)
        \/ (b = false
            /\ pending_batch (telemetry_storage s')
               = pending_batch (telemetry_storage s) ++ [l]
            /\ flushes (trace s') = S (flushes (trace s)))
        \/ (b = true
            /\ pending_batch (telemetry_storage s') = []
            /\ flushes (trace s') = S (flushes (trace s)))).
Proof.
  rewrite add_unfold. destruct (buffered_frame l s) as (Hp & Hbs & _ & _ & Ht).
  destruct (Z.geb_spec (Z.of_nat (length (pending_batch (telemetry_storage s) ++ [l])))
                       (batch_size (telemetry_storage s))) as [Hge|Hlt].
  - destruct (flush_batch (buffered l s)) as [r s'] eqn:Hf.
    destruct (flush_batch_spec _ _ _ Hf)
      as (b & evs & -> & _ & _ & _ & _ & Hp' & Ht' & Hw & _).
    exists b, s'. split; [done|]. right.
    assert (Hfl : flushes (trace s') = S (flushes (trace s))).
    { rewrite Ht', Ht, flushes_app.
      change (flushes (CallFlush :: evs)) with (S (flushes evs)).
      rewrite (write_events_no_flush _ Hw). lia. }
    destruct b; [right|left]; rewrite Hp'; by rewrite ?Hp.
  - exists true, (buffered l s). split; [done|]. left.
    rewrite Hp. by repeat split.
Qed.

(** X5. Whenever [add_telemetry_data] returns [True] with a batch size of
    at least one, the pending batch is below the batch size afterwards. *)
Theorem add_true_below_threshold (s s' : state R) (l : loc) :
  1 <= batch_size (telemetry_storage s) ->
  add_telemetry_data l s = (Ok true, s') ->
  Z.of_nat (length (pending_batch (telemetry_storage s')))
  < batch_size (telemetry_storage s).
Proof.
  intros Hbs. rewrite add_unfold.
  destruct (buffered_frame l s) as (Hp & Hb & _).
  destruct (Z.geb_spec (Z.of_nat (length (pending_batch (telemetry_storage s) ++ [l])))
                       (batch_size (telemetry_storage s))) as [Hge|Hlt].
  - intros Hf.
    destruct (flush_batch_spec _ _ _ Hf) as (b & evs & [= <-] & _ & _ & _ & _ & -> & _).
    simpl. lia.
  - intros [= <-]. by rewrite Hp.
Qed.

(** X6. Adds that stay below the batch size only buffer: each returns
    [True], the records join the pending batch in the order given, and
    neither a flush nor any call to the remote store takes place. *)
Theorem adds_below_threshold_buffer (ls : list loc) : forall s : state R,
  Z.of_nat (length (pending_batch (telemetry_storage s)) + length ls)
  < batch_size (telemetry_storage s) ->
  exists s',
    add_all ls s = (Ok (repeat true (length ls)), s')
    /\ pending_batch (telemetry_storage s')
       = pending_batch (telemetry_storage s) ++ ls
    /\ remote s' = remote s
    /\ trace s' = trace s.
Proof.
  induction ls as [|l ls IH]; intros s Hlt; simpl in *.
  - exists s. unfold ret. by rewrite app_nil_r.
  - unfold bind. rewrite add_unfold, length_app. simpl.
    destruct (Z.geb_spec (Z.of_nat (length (pending_batch (telemetry_storage s)) + 1))
                         (batch_size (telemetry_storage s))); [lia|].
    destruct (buffered_frame l s) as (Hp & Hbs & _ & Hr & Ht).
    destruct (IH (buffered l s)) as (s' & -> & Hp' & Hr' & Ht').
    { rewrite Hp, Hbs, length_app. simpl. lia. }
    exists s'. unfold ret. rewrite Hp', Hr', Ht', Hp, Hr, Ht, <- app_assoc.
    by repeat split.
Qed.

(** X7. A flush that follows a successful flush does nothing: it returns
    [True] and reaches the remote store with no call. *)
Theorem flush_after_success_is_noop (s s1 : state R) :
  flush_batch s = (Ok true, s1) ->
  flush_batch s1 = (Ok true, after_event s1 CallFlush).
Proof.
  intros H. apply flush_batch_empty.
  by destruct (flush_batch_spec _ _ _ H) as (b & evs & [= <-] & _ & _ & _ & _ & Hp & _).
Qed.

End BufferMore.

Section BufferMoreRuns.
Import Storage Fixtures.
Local Existing Instance scripted.

Lemma add_true_below_threshold_witness :
  Z.of_nat (length (pending_batch
                      (telemetry_storage (snd (add_telemetry_data 1%positive s_two)))))
  < 2.
Proof.
  apply (add_true_below_threshold s_two _ 1%positive);
    [vm_compute; discriminate|vm_compute; reflexivity].
Defined.

Lemma adds_below_threshold_buffer_witness :
  exists s',
    add_all [1; 2; 1]%positive s_idle = (Ok [true; true; true], s')
    /\ pending_batch (telemetry_storage s') = [1; 2; 1]%positive.
Proof.
  destruct (adds_below_threshold_buffer [1; 2; 1]%positive s_idle)
    as (s' & Hrun & Hp & _); [vm_compute; reflexivity|].
  exists s'. split; [exact Hrun|exact Hp].
Defined.

Lemma flush_after_success_is_noop_witness :
  fst (flush_batch (snd (flush_batch s_up))) = Ok true.
Proof.
  rewrite (flush_after_success_is_noop s_up (snd (flush_batch s_up)));
    [reflexivity|vm_compute; reflexivity].
Defined.

End BufferMoreRuns.

(** * Degenerate configurations *)

Section DegenerateMore.
Context {R : Type} {SB : Supabase R}.
Import Storage.

Lemma flush_zero_batch_size (s : state R) :
  batch_size (telemetry_storage s) = 0 ->
  pending_batch (telemetry_storage s) <> [] ->
  flush_batch s = (Ok false, after_event s CallFlush).
Proof.
  intros Hbs Hp. rewrite flush_batch_nonempty by done.
  destruct (pending_batch (telemetry_storage s)) as [|x l] eqn:E; [done|].
  unfold _write_telemetry_batch, bind, get_storage, lift, chunks_of, range_step.
  simpl. by rewrite Hbs.
Qed.

Lemma flush_negative_batch_size (s : state R) :
  batch_size (telemetry_storage s) < 0 ->
  pending_batch (telemetry_storage s) <> [] ->
  flush_batch s = (Ok true, with_pending (after_event s CallFlush) []).
Proof.
  intros Hbs Hp. rewrite flush_batch_nonempty by done.
  destruct (pending_batch (telemetry_storage s)) as [|x l] eqn:E; [done|].
  unfold _write_telemetry_batch, bind, get_storage, lift, chunks_of, range_step.
  simpl.
  destruct (Z.eqb_spec (batch_size (telemetry_storage s)) 0); [lia|].
  destruct (Z.ltb_spec0 (batch_size (telemetry_storage s)) 0); [done|lia].
Qed.

(** X8. With a batch size of zero nothing is ever written: every add
    enters a flush that fails before any call to the remote store (the
    chunking raises, which the flush catches), returns [False], and the
    record stays at the end of the pending batch. *)
Theorem zero_batch_size_never_writes (s : state R) (l : loc) :
  batch_size (telemetry_storage s) = 0 ->
  exists s',
    add_telemetry_data l s = (Ok false, s')
    /\ pending_batch (telemetry_storage s')
       = pending_batch (telemetry_storage s) ++ [l]
    /\ remote s' = remote s
    /\ trace s' = trace s ++ [CallFlush].
Proof.
  intros Hbs. rewrite add_unfold, Hbs.
  destruct (buffered_frame l s) as (Hp & Hb & _ & Hr & Ht).
  destruct (Z.geb_spec (Z.of_nat (length (pending_batch (telemetry_storage s) ++ [l]))) 0);
    [|lia].
  rewrite flush_zero_batch_size.
  - eexists. split; [reflexivity|]. simpl. by rewrite Hp, Hr, Ht.
  - by rewrite Hb.
  - rewrite Hp. by destruct (pending_batch (telemetry_storage s)).
Qed.

(** X9. With a negative batch size every add loses records: the add
    enters a flush whose chunk list is empty, so the flush reports success
    without any call to the remote store and clears the pending batch,
    and the add returns [True]. *)
Theorem negative_batch_size_drops_records (s : state R) (l : loc) :
  batch_size (telemetry_storage s) < 0 ->
  exists s',
    add_telemetry_data l s = (Ok true, s')
    /\ pending_batch (telemetry_storage s') = []
    /\ remote s' = remote s
    /\ trace s' = trace s ++ [CallFlush].
Proof.
  intros Hbs. rewrite add_unfold.
  destruct (buffered_frame l s) as (Hp & Hb & _ & Hr & Ht).
  destruct (Z.geb_spec (Z.of_nat (length (pending_batch (telemetry_storage s) ++ [l])))
                       (batch_size (telemetry_storage s))); [|lia].
  rewrite flush_negative_batch_size.
  - eexists. split; [reflexivity|]. simpl. by rewrite Hr, Ht.
  - by rewrite Hb.
  - rewrite Hp. by destruct (pending_batch (telemetry_storage s)).
Qed.

(** X10. With [max_retries] zero or negative and a batch size of at least
    one, a flush of a non-empty pending batch always fails: the write of
    the first chunk is entered and gives up without a single insert, the
    flush returns [False] and the pending batch is kept. *)
Theorem no_retries_never_writes (s : state R) :
  max_retries (telemetry_storage s) <= 0 ->
  1 <= batch_size (telemetry_storage s) ->
  pending_batch (telemetry_storage s) <> [] ->
  exists s',
    flush_batch s = (Ok false, s')
    /\ telemetry_storage s' = telemetry_storage s
    /\ remote s' = remote s
    /\ trace s'
       = trace s ++ [CallFlush;
                     CallWriteChunk 0 (take (Z.to_nat (batch_size (telemetry_storage s)))
                                            (pending_batch (telemetry_storage s)))].
Proof.
  intros Hmr Hbs Hp. rewrite flush_batch_nonempty by done.
  set (data := pending_batch (telemetry_storage s)) in *.
  set (st := Z.to_nat (batch_size (telemetry_storage s))).
  assert (Hst : (0 < st)%nat) by lia.
  destruct (div_up_bounds (length data) st Hst) as [Hup _].
  destruct ((length data + st - 1) / st)%nat as [|m] eqn:Hm.
  { destruct data; [done|simpl in Hup; lia]. }
  rewrite (write_batch_unfold data (slices st (S m) data)); [|done|].
  - rewrite slices_succ. simpl. unfold bind at 1.
    unfold _write_chunk_with_retry, bind, emit, get_storage. simpl.
    replace (Z.to_nat (max_retries (telemetry_storage s))) with 0%nat by lia.
    simpl. unfold ret. simpl. eexists. split; [reflexivity|]. simpl.
    by rewrite <- app_assoc.
  - simpl. rewrite chunks_of_pos by lia. fold st data. by rewrite Hm.
Qed.

End DegenerateMore.

Section DegenerateRuns.
Import Storage Fixtures.
Local Existing Instance scripted.

Lemma zero_batch_size_never_writes_witness :
  fst (add_telemetry_data 1%positive (init 0 3 [] heap3 [])) = Ok false.
Proof.
  destruct (zero_batch_size_never_writes (init 0 3 [] heap3 []) 1%positive eq_refl)
    as (s' & -> & _). reflexivity.
Defined.

Lemma negative_batch_size_drops_records_witness :
  exists s',
    add_telemetry_data 1%positive (init (-1) 3 [] heap3 []) = (Ok true, s')
    /\ pending_batch (telemetry_storage s') = [] /\ trace s' = [CallFlush].
Proof.
  destruct (negative_batch_size_drops_records (init (-1) 3 [] heap3 []) 1%positive)
    as (s' & Hrun & Hp & _ & Ht); [vm_compute; reflexivity|].
  exists s'. split; [exact Hrun|]. split; [exact Hp|exact Ht].
Defined.

Lemma no_retries_never_writes_witness :
  fst (flush_batch (init 2 0 [1; 2; 3]%positive heap3 [])) = Ok false.
Proof.
  destruct (no_retries_never_writes (init 2 0 [1; 2; 3]%positive heap3 []))
    as (s' & -> & _);
    [vm_compute; discriminate|vm_compute; discriminate|discriminate|reflexivity].
Defined.

End DegenerateRuns.

(** * Further properties of the retries *)

Section RetryMore.
Context {R : Type} {SB : Supabase R}.
Import Storage.

Lemma insert_outcomes_S (r : R) rows n :
  insert_outcomes r rows (S n)
  = fst (insert_execute r rows)
      :: insert_outcomes (snd (insert_execute r rows)) rows n.
Proof. simpl. by destruct (insert_execute r rows). Qed.

Lemma wait_time_below a : (a < 1024)%nat -> wait_time a = Ok (backoff a).
Proof. intros H. unfold wait_time. destruct (Nat.ltb_spec a 1024); [done|lia]. Qed.

(** The step of the inductions below: the loop after one failed attempt. *)
Lemma retry_loop_failed_head chunk n a (s : state R) :
  (a < 35)%nat ->
  failed (fst (insert_execute (remote s) (rows_of s chunk))) = true ->
  exists s1 evs,
    retry_loop chunk (seq a (S n)) s = retry_loop chunk (seq (S a) n) s1
    /\ write_step s s1 (RemoteInsert (rows_of s chunk) :: evs)
    /\ remote s1 = snd (insert_execute (remote s) (rows_of s chunk))
    /\ RemoteInsert (rows_of s chunk) :: evs
       = attempt_events (rows_of s chunk) (max_retries (telemetry_storage s)) a
           [fst (insert_execute (remote s) (rows_of s chunk))].
Proof.
  intros Ha Ho. simpl. unfold bind. rewrite attempt_insert_unfold.
  destruct (fst (insert_execute (remote s) (rows_of s chunk))) as [[|x data]|e];
    try discriminate.
  - exists (after_insert s chunk), []. by repeat split.
  - rewrite (wait_time_below a) by lia. simpl.
    rewrite sleep_outcome_backoff by lia.
    destruct (Z.of_nat a <? max_retries (telemetry_storage s) - 1).
    + exists (after_event (after_insert s chunk) (Sleep (backoff a))), [Sleep (backoff a)].
      split; [done|]. split; [|done]. split; try done. simpl. by rewrite <- app_assoc.
    + exists (after_insert s chunk), []. by repeat split.
Qed.

Lemma attempt_events_cons rows mr a o outs :
  attempt_events rows mr a (o :: outs)
  = attempt_events rows mr a [o] ++ attempt_events rows mr (S a) outs.
Proof. simpl. by rewrite app_nil_r. Qed.

Lemma retry_loop_recovers chunk mr : forall k n a (s : state R),
  max_retries (telemetry_storage s) = mr ->
  (k < n)%nat ->
  (a + k <= 35)%nat ->
  forallb failed (insert_outcomes (remote s) (rows_of s chunk) k) = true ->
  forallb failed (insert_outcomes (remote s) (rows_of s chunk) (S k)) = false ->
  exists s',
    retry_loop chunk (seq a n) s = (Ok true, s')
    /\ write_step s s'
         (attempt_events (rows_of s chunk) mr a
            (insert_outcomes (remote s) (rows_of s chunk) k)
          ++ [RemoteInsert (rows_of s chunk)]).
Proof.
  induction k as [|k IH]; intros n a s Hmr Hn Ha Hfail Hlast;
    (destruct n as [|n]; [lia|]).
  - rewrite insert_outcomes_S in Hlast. cbn [forallb insert_outcomes] in Hlast.
    rewrite andb_true_r in Hlast.
    simpl. unfold bind. rewrite attempt_insert_unfold.
    destruct (fst (insert_execute (remote s) (rows_of s chunk))) as [[|x data]|e];
      try discriminate.
    unfold ret. eexists. split; [reflexivity|]. by split.
  - rewrite insert_outcomes_S in Hfail. rewrite insert_outcomes_S in Hlast.
    cbn [forallb] in Hfail, Hlast.
    apply andb_prop in Hfail as [Ho Hk]. rewrite Ho in Hlast. simpl in Hlast.
    destruct (retry_loop_failed_head chunk n a s ltac:(lia) Ho)
      as (s1 & evs & -> & [A1 A2 A3 A4] & Hr & Hev).
    assert (Hrows : rows_of s1 chunk = rows_of s chunk).
    { unfold rows_of. by rewrite A2. }
    subst mr.
    destruct (IH n (S a) s1) as (s' & Hrun & [B1 B2 B3 B4]);
      [by rewrite A1|lia|lia|by rewrite Hr, Hrows|by rewrite Hr, Hrows|].
    exists s'. split; [done|]. split; try congruence.
    rewrite B4, A4, Hr, Hrows, insert_outcomes_S, attempt_events_cons.
    rewrite <- Hev. by rewrite <- !app_assoc.
Qed.

(** X11. A retry recovers: when the first [k] inserts of a chunk fail and
    the next one is confirmed, with [k < max_retries] and [k <= 35] (so
    that every delay slept fits [time.sleep]),
    [_write_chunk_with_retry] returns [True] after exactly [k + 1]
    inserts, and makes no further attempt. *)
Theorem retry_recovers (s : state R) (chunk : list loc) (chunk_idx k : nat) :
  let mr := max_retries (telemetry_storage s) in
  let rows := rows_of s chunk in
  Z.of_nat k < mr ->
  (k <= 35)%nat ->
  forallb failed (insert_outcomes (remote s) rows k) = true ->
  forallb failed (insert_outcomes (remote s) rows (S k)) = false ->
  exists s',
    _write_chunk_with_retry chunk chunk_idx s = (Ok true, s')
    /\ trace s'
       = trace s ++ CallWriteChunk chunk_idx chunk
           :: attempt_events rows mr 0 (insert_outcomes (remote s) rows k)
           ++ [RemoteInsert rows]
    /\ inserts (trace s') = inserts (trace s) ++ repeat rows (S k).
Proof.
  intros mr rows Hk Hk' Hfail Hlast.
  destruct (retry_loop_recovers chunk mr k (Z.to_nat mr) 0
              (after_event s (CallWriteChunk chunk_idx chunk)))
    as (s' & Hrun & [_ _ _ Ht]); [done|lia|lia|done|done|].
  simpl in Ht. fold rows in Ht. rewrite <- app_assoc in Ht. simpl in Ht.
  exists s'. split; [|split; [done|]].
  { unfold _write_chunk_with_retry. unfold_py. exact Hrun. }
  rewrite Ht, inserts_app.
  change (inserts (CallWriteChunk chunk_idx chunk :: ?l)) with (inserts l).
  rewrite inserts_app, inserts_attempt_events, insert_outcomes_length.
  f_equal. change (inserts [RemoteInsert rows]) with [rows].
  by rewrite <- repeat_cons.
Qed.

Lemma retry_loop_overflow chunk mr : forall k n a (s : state R),
  max_retries (telemetry_storage s) = mr ->
  36 < mr ->
  (k < n)%nat ->
  (a + k = 35)%nat ->
  forallb raised (insert_outcomes (remote s) (rows_of s chunk) (S k)) = true ->
  exists s',
    retry_loop chunk (seq a n) s
    = (Raise (OverflowError "timestamp too large to convert to C _PyTime_t"), s')
    /\ write_step s s'
         (attempt_events (rows_of s chunk) mr a
            (insert_outcomes (remote s) (rows_of s chunk) k)
          ++ [RemoteInsert (rows_of s chunk)]).
Proof.
  induction k as [|k IH]; intros n a s Hmr Hbig Hn Ha Hraise;
    (destruct n as [|n]; [lia|]);
    rewrite insert_outcomes_S in Hraise; cbn [forallb] in Hraise;
    apply andb_prop in Hraise as [Ho Hk].
  - simpl. unfold bind. rewrite attempt_insert_unfold.
    destruct (fst (insert_execute (remote s) (rows_of s chunk))) as [data|e];
      [discriminate|].
    rewrite (wait_time_below a) by lia.
    destruct (Z.ltb_spec (Z.of_nat a) (max_retries (telemetry_storage s) - 1)); [|lia].
    replace a with 35%nat by lia. rewrite sleep_outcome_backoff_35.
    eexists. split; [reflexivity|]. by split.
  - assert (Ho' : failed (fst (insert_execute (remote s) (rows_of s chunk))) = true).
    { by destruct (fst (insert_execute (remote s) (rows_of s chunk))). }
    destruct (retry_loop_failed_head chunk n a s ltac:(lia) Ho')
      as (s1 & evs & -> & [A1 A2 A3 A4] & Hr & Hev).
    assert (Hrows : rows_of s1 chunk = rows_of s chunk).
    { unfold rows_of. by rewrite A2. }
    subst mr.
    destruct (IH n (S a) s1) as (s' & Hrun & [B1 B2 B3 B4]);
      [by rewrite A1|done|lia|lia|by rewrite Hr, Hrows|].
    exists s'. split; [done|]. split; try congruence.
    rewrite B4, A4, Hr, Hrows, insert_outcomes_S, attempt_events_cons.
    rewrite <- Hev. by rewrite <- !app_assoc.
Qed.

(** X12. The delay of attempt 35 is too long to sleep: with
    [max_retries] of 37 or more and inserts that keep raising,
    [_write_chunk_with_retry] does not return [False] but lets the
    [OverflowError] that [time.sleep] raises for [2^34] seconds escape
    from the handler, after exactly 36 inserts. *)
Theorem retry_delay_overflow_escapes (s : state R) (chunk : list loc) (chunk_idx : nat) :
  let rows := rows_of s chunk in
  36 < max_retries (telemetry_storage s) ->
  forallb raised (insert_outcomes (remote s) rows 36) = true ->
  exists s',
    _write_chunk_with_retry chunk chunk_idx s
    = (Raise (OverflowError "timestamp too large to convert to C _PyTime_t"), s')
    /\ inserts (trace s') = inserts (trace s) ++ repeat rows 36.
Proof.
  intros rows Hmr Hraise.
  destruct (retry_loop_overflow chunk (max_retries (telemetry_storage s)) 35
              (Z.to_nat (max_retries (telemetry_storage s))) 0
              (after_event s (CallWriteChunk chunk_idx chunk)))
    as (s' & Hrun & [_ _ _ Ht]); [done|done|lia|done|done|].
  cbn [trace after_event remote] in Ht.
  change (rows_of (after_event s (CallWriteChunk chunk_idx chunk)) chunk)
    with rows in Ht.
  exists s'. split.
  { unfold _write_chunk_with_retry. unfold bind, emit, get_storage. exact Hrun. }
  rewrite Ht, <- app_assoc, !inserts_app.
  change (inserts [CallWriteChunk chunk_idx chunk]) with (@nil (list record)).
  rewrite inserts_attempt_events, insert_outcomes_length.
  change (inserts [RemoteInsert rows]) with [rows].
  change (repeat rows 36) with (rows :: repeat rows 35).
  by rewrite <- repeat_cons.
Qed.

End RetryMore.

Section RetryMoreRuns.
Import Storage Fixtures.
Local Existing Instance scripted.

Lemma retry_recovers_witness :
  exists s',
    _write_chunk_with_retry [1%positive] 0
      (init 500 3 [1%positive] heap3 [None; Some false; Some true])
    = (Ok true, s')
    /\ length (inserts (trace s')) = 3%nat.
Proof.
  destruct (retry_recovers
              (init 500 3 [1%positive] heap3 [None; Some false; Some true])
              [1%positive] 0 2)
    as (s' & Hrun & _ & Hi);
    [vm_compute; reflexivity|lia|vm_compute; reflexivity|vm_compute; reflexivity|].
  exists s'. split; [exact Hrun|]. rewrite Hi. reflexivity.
Defined.

Lemma retry_delay_overflow_escapes_witness :
  exists s',
    _write_chunk_with_retry [1%positive] 0
      (init 500 40 [1%positive] heap3 (repeat None 36))
    = (Raise (OverflowError "timestamp too large to convert to C _PyTime_t"), s').
Proof.
  destruct (retry_delay_overflow_escapes
              (init 500 40 [1%positive] heap3 (repeat None 36)) [1%positive] 0)
    as (s' & Hrun & _); [vm_compute; reflexivity|vm_compute; reflexivity|].
  exists s'. exact Hrun.
Defined.

End RetryMoreRuns.

(** * Further properties of the flush *)

Section FlushMore.
Context {R : Type} {SB : Supabase R}.
Import Storage.

Lemma enumerate_from_snd {A} (l : list A) : forall k, map snd (enumerate_from k l) = l.
Proof. induction l as [|x l IH]; intros k; simpl; [done|]. by rewrite IH. Qed.

Lemma enumerate_from_head {A} (l : list A) x k rest :
  enumerate_from k l = x :: rest -> exists c l', l = c :: l' /\ x = (k, c).
Proof. destruct l as [|c l']; simpl; [done|]. intros [= <- <-]. eauto. Qed.

Lemma rows_of_heap (s s1 : state R) chunk : heap s1 = heap s -> rows_of s1 chunk = rows_of s chunk.
Proof. intros H. unfold rows_of. by rewrite H. Qed.

Lemma write_chunk_confirmed (s : state R) chunk chunk_idx :
  1 <= max_retries (telemetry_storage s) ->
  failed (fst (insert_execute (remote s) (rows_of s chunk))) = false ->
  exists s',
    _write_chunk_with_retry chunk chunk_idx s = (Ok true, s')
    /\ write_step s s' [CallWriteChunk chunk_idx chunk; RemoteInsert (rows_of s chunk)].
Proof.
  intros Hmr Hok.
  destruct (retry_loop_recovers chunk (max_retries (telemetry_storage s)) 0
              (Z.to_nat (max_retries (telemetry_storage s))) 0
              (after_event s (CallWriteChunk chunk_idx chunk)))
    as (s' & Hrun & [A1 A2 A3 A4]); [done|lia|lia|done| |].
  { rewrite insert_outcomes_S. simpl. by rewrite andb_true_r. }
  exists s'. split.
  - unfold _write_chunk_with_retry. unfold_py. exact Hrun.
  - simpl in *. split; try done. by rewrite A4, <- app_assoc.
Qed.

Lemma write_chunks_confirmed (Hc : confirming) items : forall s : state R,
  1 <= max_retries (telemetry_storage s) ->
  Forall (fun ic => snd ic <> []) items ->
  exists s',
    write_chunks items s = (Ok true, s')
    /\ write_step s s' (first_try_events s items).
Proof.
  induction items as [|[i c] items IH]; intros s Hmr Hne; simpl.
  - exists s. split; [done|apply write_step_refl].
  - inversion Hne as [|? ? Hc0 Hrest]; subst. simpl in Hc0.
    destruct (write_chunk_confirmed s c i Hmr) as (s1 & Hrun & Hstep).
    { destruct (Hc (remote s) (rows_of s c)) as (x & xs & r' & ->); [|done].
      unfold rows_of. by destruct c. }
    unfold bind. rewrite Hrun. simpl.
    destruct Hstep as [A1 A2 A3 A4].
    destruct (IH s1) as (s' & Hrun' & [B1 B2 B3 B4]); [by rewrite A1|done|].
    assert (Hsame : first_try_events s1 items = first_try_events s items).
    { unfold first_try_events. f_equal. apply map_ext. intros ic.
      by rewrite (rows_of_heap s s1). }
    exists s'. split; [done|]. split; try congruence.
    rewrite B4, A4, Hsame. unfold first_try_events. simpl.
    by rewrite <- app_assoc.
Qed.

Lemma first_try_events_inserts (s : state R) items :
  inserts (first_try_events s items) = map (fun ic => rows_of s (snd ic)) items
  /\ sleeps (first_try_events s items) = []
  /\ chunk_calls (first_try_events s items) = items.
Proof.
  induction items as [|[i c] items (IH1 & IH2 & IH3)]; [done|].
  change (first_try_events s ((i, c) :: items))
    with ([CallWriteChunk i c; RemoteInsert (rows_of s c)]
            ++ first_try_events s items).
  by rewrite inserts_app, sleeps_app, chunk_calls_app, IH1, IH2, IH3.
Qed.

(** X13. With a remote store that confirms every insert, a batch size and
    a [max_retries] of at least one, a flush always succeeds and sends
    every pending record exactly once and in order: one insert per chunk,
    the rows of all inserts put together being the rows of the pending
    batch, without any sleep; the pending batch is empty afterwards. *)
Theorem healthy_flush_sends_each_record_once (s : state R) :
  confirming ->
  1 <= batch_size (telemetry_storage s) ->
  1 <= max_retries (telemetry_storage s) ->
  exists s' evs chunks,
    flush_batch s = (Ok true, s')
    /\ pending_batch (telemetry_storage s') = []
    /\ trace s' = trace s ++ CallFlush :: evs
    /\ chunks_of (batch_size (telemetry_storage s))
                 (pending_batch (telemetry_storage s)) = Ok chunks
    /\ inserts evs = map (rows_of s) chunks
    /\ concat (inserts evs) = rows_of s (pending_batch (telemetry_storage s))
    /\ sleeps evs = [].
Proof.
  intros Hc Hbs Hmr.
  destruct (chunks_of_partition (batch_size (telemetry_storage s))
              (pending_batch (telemetry_storage s)) Hbs)
    as (chunks & Hch & Hcat & Hall & _).
  assert (Hrows : concat (map (rows_of s) chunks)
                  = rows_of s (pending_batch (telemetry_storage s))).
  { rewrite <- Hcat. unfold rows_of. by rewrite concat_map. }
  destruct (pending_batch (telemetry_storage s)) as [|x l] eqn:E.
  - assert (chunks = []) as ->.
    { destruct chunks as [|c0 ?]; [done|]. destruct c0; [|done].
      apply Forall_inv in Hall. simpl in Hall. lia. }
    rewrite flush_batch_empty by done.
    exists (after_event s CallFlush), [], []. simpl. by rewrite E.
  - rewrite flush_batch_nonempty by (by rewrite E). rewrite E.
    rewrite (write_batch_unfold _ chunks) by done.
    destruct (write_chunks_confirmed Hc (enumerate_from 0 chunks)
                (after_event s CallFlush)) as (s1 & -> & [A1 A2 A3 A4]); [done| |].
    { apply Forall_forall. intros [i c] Hin. simpl.
      assert (Hcin : c ∈ chunks).
      { rewrite <- (enumerate_from_snd chunks 0).
        apply list_elem_of_In, in_map_iff. exists (i, c).
        split; [done|]. by apply list_elem_of_In. }
      rewrite Forall_forall in Hall. destruct (Hall c Hcin) as [Hlen _].
      destruct c; [simpl in Hlen; lia|done]. }
    destruct (first_try_events_inserts (after_event s CallFlush) (enumerate_from 0 chunks))
      as (Hi & Hs & _).
    exists (with_pending s1 []),
           (first_try_events (after_event s CallFlush) (enumerate_from 0 chunks)),
           chunks.
    simpl in *. rewrite A4, <- app_assoc. simpl.
    assert (Hi' : inserts (first_try_events (after_event s CallFlush)
                                            (enumerate_from 0 chunks))
                  = map (rows_of s) chunks).
    { rewrite Hi, <- (map_map snd (rows_of (after_event s CallFlush))).
      by rewrite enumerate_from_snd. }
    rewrite Hi', Hrows. by repeat split.
Qed.

Lemma retry_loop_inserts chunk attempts : forall (s : state R) r s',
  retry_loop chunk attempts s = (r, s') ->
  exists evs, write_step s s' evs
              /\ Forall (fun rows => rows = rows_of s chunk) (inserts evs).
Proof.
  induction attempts as [|a attempts IH]; intros s r s'; simpl.
  - unfold ret. intros [= <- <-]. exists []. split; [apply write_step_refl|done].
  - unfold bind.
    destruct (attempt_insert chunk a s) as [r1 s1] eqn:E.
    destruct (attempt_insert_step _ _ _ _ _ E) as (evs & Hstep & _ & Hi).
    assert (Hall : Forall (fun rows => rows = rows_of s chunk) (inserts evs)).
    { rewrite Hi. by repeat constructor. }
    destruct r1 as [[]|e].
    + unfold ret. intros [= <- <-]. eauto.
    + intros H. destruct (IH _ _ _ H) as (evs2 & Hstep2 & Hall2).
      exists (evs ++ evs2). split; [by eapply write_step_trans|].
      rewrite inserts_app. apply Forall_app. split; [done|].
      by rewrite (rows_of_heap s s1) in Hall2 by apply Hstep.
    + intros [= <- <-]. eauto.
Qed.

Lemma write_chunk_inserts chunk chunk_idx (s : state R) r s' :
  _write_chunk_with_retry chunk chunk_idx s = (r, s') ->
  exists evs, write_step s s' (CallWriteChunk chunk_idx chunk :: evs)
              /\ Forall (fun rows => rows = rows_of s chunk) (inserts evs).
Proof.
  unfold _write_chunk_with_retry, bind, emit, get_storage. simpl.
  intros H. destruct (retry_loop_inserts _ _ _ _ _ H) as (evs & [A1 A2 A3 A4] & Hall).
  exists evs. split; [|done]. simpl in *.
  split; try done. by rewrite A4, <- app_assoc.
Qed.

Lemma write_chunks_inserts items : forall (s : state R) r s',
  write_chunks items s = (r, s') ->
  exists evs, write_step s s' evs
              /\ Forall (fun rows => exists ic, ic ∈ items /\ rows = rows_of s (snd ic))
                        (inserts evs).
Proof.
  induction items as [|[i c] items IH]; intros s r s'; simpl.
  - unfold ret. intros [= <- <-]. exists []. split; [apply write_step_refl|done].
  - unfold bind.
    destruct (_write_chunk_with_retry c i s) as [r1 s1] eqn:E.
    destruct (write_chunk_inserts _ _ _ _ _ E) as (evs1 & Hstep1 & Hall1).
    assert (Hhere : Forall (fun rows => exists ic, ic ∈ (i, c) :: items
                                                  /\ rows = rows_of s (snd ic))
                           (inserts (CallWriteChunk i c :: evs1))).
    { change (inserts (CallWriteChunk i c :: evs1)) with (inserts evs1).
      eapply Forall_impl; [exact Hall1|]. intros rows ->.
      exists (i, c). split; [left|done]. }
    destruct r1 as [[]|e]; simpl.
    + intros H. destruct (IH _ _ _ H) as (evs2 & Hstep2 & Hall2).
      exists ((CallWriteChunk i c :: evs1) ++ evs2).
      split; [by eapply write_step_trans|].
      rewrite inserts_app. apply Forall_app. split; [done|].
      eapply Forall_impl; [exact Hall2|]. intros rows (ic & Hin & ->).
      exists ic. split; [by right|]. apply rows_of_heap, Hstep1.
    + unfold ret. intros [= <- <-]. eauto.
    + intros [= <- <-]. eauto.
Qed.

Lemma chunks_of_subset {A} bs (data : list A) chunks :
  chunks_of bs data = Ok chunks ->
  forall c x, c ∈ chunks -> x ∈ c -> x ∈ data.
Proof.
  unfold chunks_of, range_step.
  destruct (bs =? 0); [discriminate|].
  destruct (bs <? 0); simpl.
  - intros [= <-] c x Hc. by apply elem_of_nil in Hc.
  - intros [= <-] c x Hc Hx.
    apply list_elem_of_In, in_map_iff in Hc as (i & <- & _).
    by apply (subseteq_drop i data), (subseteq_take (Z.to_nat bs)).
Qed.

Lemma flush_batch_inserts (s : state R) r s' :
  flush_batch s = (r, s') ->
  exists evs,
    trace s' = trace s ++ CallFlush :: evs
    /\ Forall (fun rows =>
                 exists c, (forall l, l ∈ c -> l ∈ pending_batch (telemetry_storage s))
                           /\ rows = rows_of s c)
              (inserts evs).
Proof.
  destruct (pending_batch (telemetry_storage s)) as [|x l] eqn:E.
  - rewrite flush_batch_empty by done. intros [= <- <-]. exists []. by split.
  - rewrite flush_batch_nonempty by (by rewrite E). rewrite E.
    destruct (_write_telemetry_batch (x :: l) (after_event s CallFlush))
      as [r1 s1] eqn:Hw.
    assert (Hgoal : exists evs,
               trace s1 = trace s ++ CallFlush :: evs
               /\ Forall (fun rows => exists c, (forall l0, l0 ∈ c -> l0 ∈ x :: l)
                                                /\ rows = rows_of s c)
                         (inserts evs)).
    { unfold _write_telemetry_batch, bind, get_storage, lift in Hw. simpl in Hw.
      destruct (chunks_of (batch_size (telemetry_storage s)) (x :: l))
        as [chunks|e] eqn:Hch.
      - destruct (write_chunks_inserts _ _ _ _ Hw) as (evs & [_ _ _ A4] & Hall).
        exists evs. simpl in A4. rewrite <- app_assoc in A4. split; [done|].
        eapply Forall_impl; [exact Hall|]. intros rows ([i c] & Hin & ->).
        exists c. split; [|done]. intros l0 Hl0.
        eapply (chunks_of_subset _ _ _ Hch c); [|done].
        rewrite <- (enumerate_from_snd chunks 0).
        apply list_elem_of_In, in_map_iff. exists (i, c).
        split; [done|]. by apply list_elem_of_In.
      - injection Hw as <- <-. exists []. simpl. by split. }
    destruct Hgoal as (evs & Ht & Hall).
    destruct r1 as [[]|e]; intros [= <- <-]; exists evs; by split.
Qed.

End FlushMore.

Section StampMore.
Context {R : Type} {SB : Supabase R}.
Import Storage.

Lemma buffered_stamped l (s : state R) :
  stamped_pending s -> stamped_pending (buffered l s).
Proof.
  intros Hs l' Hl'.
  destruct (buffered_frame l s) as (Hp & _). rewrite Hp in Hl'.
  destruct (decide (l' = l)) as [->|Hne].
  - unfold buffered.
    destruct (default ∅ (heap s !! l) !! "created_at") as [v|] eqn:E; simpl.
    + rewrite E. eauto.
    + rewrite lookup_insert_eq. simpl. apply stamped_lookup.
  - rewrite (proj2 (buffered_heap l s) l' Hne). apply Hs.
    apply elem_of_app in Hl' as [Hin|Hin]; [done|].
    apply list_elem_of_singleton in Hin. done.
Qed.

(** X14. Every row that reaches the remote store has its [created_at]:
    when every pending record is stamped (as they are when the batch is
    empty), an [add_telemetry_data] keeps it so, and every row of every
    insert made during the add carries the key [created_at]. *)
Theorem rows_sent_are_stamped (s s' : state R) (l : loc) (r : result bool) :
  stamped_pending s ->
  add_telemetry_data l s = (r, s') ->
  stamped_pending s'
  /\ exists evs,
      trace s' = trace s ++ evs
      /\ Forall (Forall has_created_at) (inserts evs).
Proof.
  intros Hs. rewrite add_unfold.
  pose proof (buffered_stamped l s Hs) as Hb.
  destruct (buffered_frame l s) as (_ & _ & _ & _ & Ht).
  destruct (_ >=? _).
  - intros Hf. split.
    + destruct (flush_batch_spec _ _ _ Hf) as (b & _ & _ & Hh & _ & _ & _ & Hp & _).
      intros l' Hl'. rewrite Hp in Hl'. destruct b; [by apply elem_of_nil in Hl'|].
      rewrite Hh. by apply Hb.
    + destruct (flush_batch_inserts _ _ _ Hf) as (evs & Ht' & Hall).
      exists (CallFlush :: evs). rewrite Ht', Ht. split; [done|].
      change (inserts (CallFlush :: evs)) with (inserts evs).
      eapply Forall_impl; [exact Hall|]. intros rows (c & Hc & ->).
      unfold rows_of. apply Forall_map, Forall_forall. intros l' Hl'.
      apply Hb, Hc, Hl'.
  - intros [= <- <-]. split; [done|]. exists []. rewrite app_nil_r. by split.
Qed.

End StampMore.

Section ChunkMore.
Context {A : Type}.
Import Storage.

(** X15. For a batch size of at least one the input is cut into
    [ceil(len / batch_size)] chunks, and every chunk but the last holds
    exactly [batch_size] records. *)
Theorem chunks_full_but_last (bs : Z) (data : list A) :
  1 <= bs ->
  exists chunks,
    chunks_of bs data = Ok chunks
    /\ Z.of_nat (length chunks) = (Z.of_nat (length data) + bs - 1) / bs
    /\ forall i c, chunks !! i = Some c ->
                   (S i < length chunks)%nat ->
                   Z.of_nat (length c) = bs.
Proof.
  intros Hbs. set (st := Z.to_nat bs). set (n := length data).
  assert (Hst : (0 < st)%nat) by lia.
  destruct (div_up_bounds n st Hst) as (Hup & Hlow).
  set (m := ((n + st - 1) / st)%nat) in *.
  exists (slices st m data).
  assert (Hlen : length (slices st m data) = m).
  { unfold slices. by rewrite !length_map, length_seq. }
  split; [by apply chunks_of_pos; lia|]. split.
  - rewrite Hlen. unfold m. rewrite Nat2Z.inj_div.
    f_equal; lia.
  - intros i c Hi Hlt. rewrite Hlen in Hlt.
    assert (Hc : map length (slices st m data) !! i = Some (length c)).
    { change (map length (slices st m data)) with (length <$> slices st m data).
      by rewrite list_lookup_fmap, Hi. }
    rewrite slices_lengths in Hc.
    change (map ?f (seq 0 m)) with (f <$> seq 0 m) in Hc.
    rewrite list_lookup_fmap, lookup_seq_lt in Hc by lia.
    simpl in Hc. injection Hc as <-. fold n.
    specialize (Hlow (S i) Hlt). lia.
Qed.

End ChunkMore.

Section ResendMore.
Context {R : Type} {SB : Supabase R}.
Import Storage.

(** X16. A flush keeps no trace of what an earlier, failed flush already
    wrote: for a batch size of at least one, the flush that follows a
    failed flush starts again with the same first chunk, numbered 0, the
    first [batch_size] pending records. *)
Theorem flush_after_failure_restarts (s s1 s2 : state R) (r : result bool) :
  1 <= batch_size (telemetry_storage s) ->
  flush_batch s = (Ok false, s1) ->
  flush_batch s1 = (r, s2) ->
  exists evs1 evs2 rest1 rest2,
    trace s1 = trace s ++ CallFlush :: evs1
    /\ trace s2 = trace s1 ++ CallFlush :: evs2
    /\ let first := take (Z.to_nat (batch_size (telemetry_storage s)))
                         (pending_batch (telemetry_storage s)) in
       chunk_calls evs1 = (0%nat, first) :: rest1
       /\ chunk_calls evs2 = (0%nat, first) :: rest2.
Proof.
  intros Hbs H1 H2.
  destruct (flush_batch_spec _ _ _ H1)
    as (b1 & evs1 & [= <-] & _ & _ & Hbs1 & _ & Hp1 & Ht1 & _ & Hch1).
  destruct (flush_batch_spec _ _ _ H2)
    as (b2 & evs2 & _ & _ & _ & _ & _ & _ & Ht2 & _ & Hch2).
  rewrite Hp1, Hbs1 in Hch2.
  assert (Hne : pending_batch (telemetry_storage s) <> []).
  { intros E. rewrite (flush_batch_empty s E) in H1. discriminate. }
  destruct (chunks_of_partition (batch_size (telemetry_storage s))
              (pending_batch (telemetry_storage s)) Hbs)
    as (chunks & Hc & Hcat & _).
  assert (Hfirst : exists rest,
             enumerate_from 0 chunks
             = (0%nat, take (Z.to_nat (batch_size (telemetry_storage s)))
                            (pending_batch (telemetry_storage s))) :: rest).
  { rewrite chunks_of_pos in Hc by lia. injection Hc as <-.
    set (st := Z.to_nat (batch_size (telemetry_storage s))) in *.
    destruct ((length (pending_batch (telemetry_storage s)) + st - 1) / st)%nat
      as [|m] eqn:Hm.
    - simpl in Hcat. by rewrite <- Hcat in Hne.
    - rewrite slices_succ. simpl. eauto. }
  destruct Hfirst as (rest & Hen).
  assert (Hchunks : chunks <> []).
  { intros ->. discriminate. }
  destruct (Hch1 chunks Hne Hc) as (post1 & He1 & _ & Hn1).
  destruct (Hch2 chunks Hne Hc) as (post2 & He2 & _ & Hn2).
  specialize (Hn1 Hchunks). specialize (Hn2 Hchunks).
  rewrite Hen in He1, He2.
  destruct (chunk_calls evs1) as [|c1 rest1] eqn:E1; [done|].
  destruct (chunk_calls evs2) as [|c2 rest2] eqn:E2; [done|].
  injection He1 as <- _. injection He2 as <- _.
  exists evs1, evs2, rest1, rest2.
  split; [exact Ht1|]. split; [exact Ht2|]. cbv zeta. by split.
Qed.

End ResendMore.

Section FlushMoreRuns.
Import Storage Fixtures Fixtures2.

Lemma healthy_flush_sends_each_record_once_witness :
  exists s' evs,
    @flush_batch _ echo (init_echo 2 3 [1; 2; 3]%positive heap3) = (Ok true, s')
    /\ trace s' = [] ++ CallFlush :: evs
    /\ concat (inserts evs) = [rec1; rec1; rec1].
Proof.
  destruct (@healthy_flush_sends_each_record_once _ echo
              (init_echo 2 3 [1; 2; 3]%positive heap3))
    as (s' & evs & chunks & Hrun & _ & Ht & _ & _ & Hcat & _).
  - intros r rows Hrows. destruct rows as [|x xs]; [done|]. by exists x, xs, r.
  - vm_compute. discriminate.
  - vm_compute. discriminate.
  - exists s', evs. split; [exact Hrun|]. split; [exact Ht|]. exact Hcat.
Defined.

Lemma rows_sent_are_stamped_witness :
  @stamped_pending (list (option bool))
    (snd (@add_telemetry_data _ scripted 1%positive (init 1 3 [] heap3 [None; None; None]))).
Proof.
  refine (proj1 (@rows_sent_are_stamped _ scripted
                   (init 1 3 [] heap3 [None; None; None]) _ 1%positive
                   (fst (@add_telemetry_data _ scripted 1%positive
                           (init 1 3 [] heap3 [None; None; None]))) _ _)).
  - intros l Hl. by apply elem_of_nil in Hl.
  - vm_compute. reflexivity.
Defined.

Lemma chunks_full_but_last_witness :
  exists chunks,
    chunks_of 2 [1; 2; 3; 4; 5]%positive = Ok chunks
    /\ Z.of_nat (length chunks) = 3.
Proof.
  destruct (chunks_full_but_last 2 [1; 2; 3; 4; 5]%positive) as (chunks & Hc & Hl & _);
    [lia|].
  exists chunks. split; [exact Hc|exact Hl].
Defined.

Lemma flush_after_failure_restarts_witness :
  exists evs2 rest2,
    trace (snd (@flush_batch _ scripted
                  (snd (@flush_batch _ scripted
                          (init 1 1 [1; 2]%positive heap3 [Some true; None])))))
    = trace (snd (@flush_batch _ scripted
                    (init 1 1 [1; 2]%positive heap3 [Some true; None])))
        ++ CallFlush :: evs2
    /\ chunk_calls evs2 = (0%nat, [1%positive]) :: rest2.
Proof.
  pose (s0 := init 1 1 [1; 2]%positive heap3 [Some true; None]).
  destruct (@flush_after_failure_restarts _ scripted s0
              (snd (@flush_batch _ scripted s0))
              (snd (@flush_batch _ scripted (snd (@flush_batch _ scripted s0))))
              (fst (@flush_batch _ scripted (snd (@flush_batch _ scripted s0)))))
    as (evs1 & evs2 & rest1 & rest2 & _ & Ht2 & _ & Hc2);
    [vm_compute; discriminate|vm_compute; reflexivity|vm_compute; reflexivity|].
  exists evs2, rest2. split; [exact Ht2|exact Hc2].
Defined.

End FlushMoreRuns.

(** * Further properties of the routes *)

Section RoutesMore.
Context {B : PyBuiltins} {R : Type} {SB : Supabase R}.
Import Storage.

Lemma parse_telemetry_nostore c raw' store (s : state R) :
  Api.flag_arg store = false ->
  Api.parse_telemetry (String c raw') store s
  = (Ok (200, Api.ParseBody true (Parser.parse_telemetry_line (VStr (String c raw')))
                            (utcnow_isoformat (clock s)) None None),
     mkState (telemetry_storage s)
             (<[fresh (dom (heap s)) := Parser.parse_telemetry_line (VStr (String c raw'))]>
                (heap s))
             (remote s) (S (clock s)) (trace s)).
Proof.
  intros Hf. unfold Api.parse_telemetry, Api.get_current_timestamp. rewrite Hf.
  unfold_py. by rewrite lookup_insert_eq.
Qed.

(** X17. [parse_telemetry] never answers with a server error: the status
    is 400 exactly when the body is empty, in which case nothing at all
    happens, and 200 otherwise, whatever the storing does. *)
Theorem parse_route_status (raw_data : string) (store : option string) (s : state R) :
  exists status body s',
    Api.parse_telemetry raw_data store s = (Ok (status, body), s')
    /\ ((raw_data = EmptyString /\ status = 400 /\ s' = s
         /\ body = Api.ErrorBody "No telemetry data provided" None)
        \/ (raw_data <> EmptyString /\ status = 200
            /\ exists d ts stored st, body = Api.ParseBody true d ts stored st)).
Proof.
  destruct raw_data as [|c raw'].
  - do 3 eexists. split; [reflexivity|]. left. by repeat split.
  - destruct (Api.flag_arg store) eqn:Hf.
    + destruct (parse_telemetry_store c raw' store s Hf) as (b & st & s' & Hrun & _).
      do 3 eexists. split; [exact Hrun|]. right. repeat split; eauto.
    + rewrite (parse_telemetry_nostore c raw' store s Hf).
      do 3 eexists. split; [reflexivity|]. right. repeat split; eauto.
Qed.

(** X18. When the [store] argument is anything but the word [true] (in
    any case), [parse_telemetry] only parses: the answer carries the
    parsed record as the parser made it, without [stored] and
    [batch_status]; the pending batch, the remote store and every record
    object that existed are untouched and no remote call is made. *)
Theorem parse_route_without_store (c : ascii) (raw' : string) (store : option string)
    (s : state R) :
  Api.flag_arg store = false ->
  exists s',
    Api.parse_telemetry (String c raw') store s
    = (Ok (200, Api.ParseBody true (Parser.parse_telemetry_line (VStr (String c raw')))
                              (utcnow_isoformat (clock s)) None None), s')
    /\ telemetry_storage s' = telemetry_storage s
    /\ remote s' = remote s
    /\ trace s' = trace s
    /\ forall l d, heap s !! l = Some d -> heap s' !! l = Some d.
Proof.
  intros Hf. eexists. split; [by apply parse_telemetry_nostore|]. simpl.
  repeat split; try done. intros l d Hl.
  rewrite lookup_insert_ne; [done|]. intros <-.
  pose proof (is_fresh (dom (heap s))) as Hfresh.
  by apply Hfresh, elem_of_dom.
Qed.


(** X20. The route [/health] answers 200 with the status ["healthy"]
    whatever the remote store does: it probes the remote store twice (once
    itself, once through the batch status), reports the two answers, and
    leaves the buffer alone. *)
Theorem health_route_always_healthy (s : state R) :
  exists ts connected st s',
    Routes.health_check s = (Ok (200, Routes.HealthBody "healthy" ts connected st), s')
    /\ trace s' = trace s ++ [RemoteSelectCount; RemoteSelectCount]
    /\ telemetry_storage s' = telemetry_storage s
    /\ heap s' = heap s
    /\ connected = match fst (select_count_execute (remote s)) with
                   | Ok _ => true
                   | Raise _ => false
                   end
    /\ pending_records st = length (pending_batch (telemetry_storage s)).
Proof.
  unfold Routes.health_check, Storage.get_batch_status, Api.get_current_timestamp.
  unfold_py.
  destruct (select_count_execute (remote s)) as [[x|e] r1]; simpl;
    destruct (select_count_execute r1) as [[y|e'] r2]; simpl;
    do 4 eexists; (split; [reflexivity|]); simpl;
    rewrite <- app_assoc; by repeat split.
Qed.

End RoutesMore.

Section RoutesMoreRuns.
Import Storage Fixtures.
Local Existing Instance scripted.

Lemma parse_route_without_store_witness :
  exists s',
    Api.parse_telemetry (B := ascii_builtins) "alt:150" (Some "false") s_idle
    = (Ok (200, Api.ParseBody true
                  (@Parser.parse_telemetry_line ascii_builtins (VStr "alt:150"))
                  (stamp 0) None None), s')
    /\ trace s' = [].
Proof.
  destruct (parse_route_without_store (B := ascii_builtins)
              "a"%char "lt:150" (Some "false") s_idle eq_refl)
    as (s' & Hrun & _ & _ & Ht & _).
  exists s'. split; [exact Hrun|exact Ht].
Defined.

End RoutesMoreRuns.

(** * The client singleton *)

Section ClientMore.
Context {C : Type} {L : Client.SupabaseLib C}.
Variable env : Client.environ.

(** X21. Without credentials there is no client: when the URL or the key
    is unset or empty, [_initialize_client] raises [ValueError] without
    calling [create_client], so on an instance without client the
    constructor and the property [client] raise, while [health_check]
    returns [False]; the instance is left as it was. *)
Theorem missing_credentials_no_client (self : Client.SupabaseClient C) :
  Client.truthy (Client.SUPABASE_URL env) = None
  \/ Client.truthy (Client.SUPABASE_SERVICE_ROLE_KEY env) = None ->
  let e := ValueError "Missing Supabase credentials in environment variables" in
  Client._initialize_client env self = (Raise e, self)
  /\ (Client._client self = None ->
      Client.__init__ env self = (Raise e, self)
      /\ Client.client env self = (Raise e, self)
      /\ Client.health_check env self = (false, self)).
Proof.
  intros Hmiss e.
  assert (Hinit : Client._initialize_client env self = (Raise e, self)).
  { unfold Client._initialize_client.
    destruct Hmiss as [-> | ->]; [done|].
    by destruct (Client.truthy (Client.SUPABASE_URL env)). }
  split; [done|]. intros Hnone.
  unfold Client.health_check, Client.client, Client.__init__.
  by rewrite Hnone, Hinit.
Qed.

(** X22. The property [client] never hands out [None], and the client is
    made once: when [client] returns, it returns an actual client, which
    is then stored, and from then on [client] and the constructor return
    at once with that same client and without another call of
    [create_client]. *)
Theorem client_created_once (self self' : Client.SupabaseClient C) (oc : option C) :
  Client.client env self = (Ok oc, self') ->
  exists c,
    oc = Some c
    /\ Client._client self' = Some c
    /\ Client.client env self' = (Ok (Some c), self')
    /\ Client.__init__ env self' = (Ok tt, self')
    /\ (Client.created self' <= S (Client.created self))%nat
    /\ (is_Some (Client._client self) -> self' = self).
Proof.
  unfold Client.client, Client.__init__.
  destruct (Client._client self) as [c0|] eqn:E.
  - intros [= <- <-]. exists c0. rewrite E. repeat split; eauto.
  - unfold Client._initialize_client.
    destruct (Client.truthy (Client.SUPABASE_URL env)); [|discriminate].
    destruct (Client.truthy (Client.SUPABASE_SERVICE_ROLE_KEY env)); [|discriminate].
    destruct (Client.create_client s s0) as [c|e]; [|discriminate].
    intros [= <- <-]. exists c. simpl. repeat split; eauto.
    by intros [? ?].
Qed.

End ClientMore.

Section ClientRuns.
Import Fixtures2.

Lemma missing_credentials_no_client_witness :
  @Client.health_check unit lib_ok env_no_key (Client.mkClient None 0)
  = (false, Client.mkClient None 0).
Proof.
  destruct (@missing_credentials_no_client unit lib_ok env_no_key
              (Client.mkClient None 0)) as (_ & H); [right; reflexivity|].
  exact (proj2 (proj2 (H eq_refl))).
Defined.

Lemma client_created_once_witness :
  exists c,
    @Client.client unit lib_ok env_ok (Client.mkClient (Some c) 1)
    = (Ok (Some c), Client.mkClient (Some c) 1).
Proof.
  destruct (@client_created_once unit lib_ok env_ok
              (Client.mkClient None 0) (Client.mkClient (Some tt) 1) (Some tt) eq_refl)
    as (c & _ & Hc & Hagain & _).
  exists c. simpl in Hc. injection Hc as <-. exact Hagain.
Defined.

End ClientRuns.

Section QueryMore.
Context {B : PyBuiltins} {R : Type} {SB : Supabase R}.

(** X23. [query_telemetry] never touches the buffer: whatever its
    arguments and its outcome, the storage object and the record objects
    are as before, and at most one call, the range query, goes to the
    remote store. *)
Theorem query_leaves_buffer (limit offset order_by desc : option string)
    (s s' : state R) (r : result (Z * Api.body)) :
  Api.query_telemetry limit offset order_by desc s = (r, s') ->
  telemetry_storage s' = telemetry_storage s
  /\ heap s' = heap s
  /\ exists evs, trace s' = trace s ++ evs
                 /\ (length evs <= 1)%nat
                 /\ remote_calls evs = evs.
Proof.
  rewrite query_telemetry_unfold.
  destruct (Api.int_arg limit 100) as [n|e];
    [destruct (Api.int_arg offset 0) as [m|e]|].
  - simpl. destruct (select_range_execute _ _ _ _ _) as [[data|e] rem];
      intros [= <- <-]; simpl; (do 2 (split; [done|])); eexists [_];
      (split; [reflexivity|]); (split; [simpl; lia|reflexivity]).
  - intros [= <- <-]. simpl. do 2 (split; [done|]). exists [].
    rewrite app_nil_r. split; [done|]. split; [simpl; lia|done].
  - intros [= <- <-]. simpl. do 2 (split; [done|]). exists [].
    rewrite app_nil_r. split; [done|]. split; [simpl; lia|done].
Qed.

End QueryMore.

Section QueryMoreRuns.
Import Fixtures.
Local Existing Instance scripted.

Lemma query_leaves_buffer_witness :
  telemetry_storage
    (snd (Api.query_telemetry (B := ascii_builtins) (Some "5") None None None s_up))
  = telemetry_storage s_up.
Proof.
  refine (proj1 (query_leaves_buffer (B := ascii_builtins)
                   (Some "5") None None None s_up _
                   (fst (Api.query_telemetry (B := ascii_builtins)
                           (Some "5") None None None s_up)) _)).
  vm_compute. reflexivity.
Defined.

End QueryMoreRuns.
